(** * hardcoded-api-key-detector: the detection and false-positive pipeline

    A shallow embedding of the core of the scanner (src/utils/safeRegex.js,
    src/utils/entropy.js, src/scanner/analyzer.js, src/scanner/analyzerWorker.js,
    src/baseline/BaselineManager.js and src/index.js) together with the
    properties the specification states about it.

    Conventions of the embedding.
    - A JavaScript string is a [string]: a sequence of code units, restricted
      to the units below 256.
    - A JavaScript object used as a dictionary is an association list with
      unique keys, kept in insertion order (the order [Object.entries]
      enumerates non-numeric keys in).
    - Exceptions are explicit: a computation that may throw returns a
      [Completion]; [try]/[catch] is a match on it.
    - JavaScript numbers that only count or index are [nat] or [Z]; the
      entropy, the one fractional quantity, is a real number. *)

From Stdlib Require Import Bool Arith ZArith List String Ascii Lia DecimalString.
From Stdlib Require Import Reals Lra.
Import ListNotations.

Set Implicit Arguments.

Local Open Scope string_scope.
Local Open Scope list_scope.

(** ** JavaScript strings *)

Module JsString.

(** [s.includes(sub)] *)
Fixpoint includes (s sub : string) : bool :=
  if prefix sub s then true
  else match s with
       | EmptyString => false
       | String _ rest => includes rest sub
       end.

(** [s.split(sep)] for a one-character separator; the result is never
    empty: splitting the empty string gives one empty piece. *)
Fixpoint split_aux (sep : ascii) (cur : string) (s : string) : list string :=
  match s with
  | EmptyString => [cur]
  | String c rest =>
      if Ascii.eqb c sep then cur :: split_aux sep EmptyString rest
      else split_aux sep (cur ++ String c EmptyString) rest
  end.

Definition split (sep : ascii) (s : string) : list string :=
  split_aux sep EmptyString s.

(** [s.substring(0, n)] *)
Definition take (n : nat) (s : string) : string := substring 0 n s.

Definition newline : ascii := "010"%char.

(** White space as [String.prototype.trim] sees it, among the units
    below 256: tab, line feed, vertical tab, form feed, carriage return,
    space and the no-break space. *)
Definition is_space (c : ascii) : bool :=
  match nat_of_ascii c with
  | 9 | 10 | 11 | 12 | 13 | 32 | 160 => true
  | _ => false
  end.

Fixpoint trim_start (s : string) : string :=
  match s with
  | EmptyString => EmptyString
  | String c rest => if is_space c then trim_start rest else s
  end.

Fixpoint trim_end (s : string) : string :=
  match s with
  | EmptyString => EmptyString
  | String c rest =>
      match trim_end rest with
      | EmptyString => if is_space c then EmptyString else String c EmptyString
      | r => String c r
      end
  end.

(** [s.trim()] *)
Definition trim (s : string) : string := trim_end (trim_start s).

(** [s.lastIndexOf(c, from)]: the greatest index [i <= from] holding [c],
    or [-1]; a negative [from] is clamped to [0]. *)
Fixpoint lastIndexOf_aux (c : ascii) (s : string) (i : nat) (from : nat) (found : Z) : Z :=
  match s with
  | EmptyString => found
  | String d rest =>
      if Nat.ltb from i then found
      else lastIndexOf_aux c rest (S i) from (if Ascii.eqb d c then Z.of_nat i else found)
  end.

Definition lastIndexOf (c : ascii) (s : string) (from : Z) : Z :=
  lastIndexOf_aux c s 0 (Z.to_nat from) (-1)%Z.

(** [c.repeat(n)] for a one-character string. *)
Fixpoint repeat (c : ascii) (n : nat) : string :=
  match n with
  | O => EmptyString
  | S k => String c (repeat c k)
  end.

End JsString.

(** ** A [Set] of numbers

    The ignored lines are a JavaScript [Set]: insertion order, no repeats. *)

Module NumSet.

Definition t := list nat.

Definition empty : t := [].

Definition has (s : t) (n : nat) : bool := existsb (Nat.eqb n) s.

Definition add (n : nat) (s : t) : t := if has s n then s else s ++ [n].

End NumSet.

(** ** Inline ignore comments: [ContentAnalyzer.parseInlineIgnoreComments] *)

Module InlineIgnore.

Definition DISABLE := "hardcoded-detector:disable".
Definition ENABLE := "hardcoded-detector:enable".
Definition DISABLE_NEXT_LINE := "hardcoded-detector:disable-next-line".
Definition DISABLE_LINE := "hardcoded-detector:disable-line".

(** The body of the [for] loop, from index [i] on; [total] is
    [lines.length] and [rest] the lines from [i]. The tests are in the
    order of the source. *)
Fixpoint parse_from (total : nat) (i : nat) (rest : list string)
         (blockDisabled : bool) (ignoredLines : NumSet.t) : NumSet.t :=
  match rest with
  | [] => ignoredLines
  | line :: rest' =>
      let lineNumber := i + 1 in
      if JsString.includes line DISABLE then
        parse_from total (S i) rest' true (NumSet.add lineNumber ignoredLines)
      else if JsString.includes line ENABLE then
        parse_from total (S i) rest' false ignoredLines
      else if blockDisabled then
        parse_from total (S i) rest' blockDisabled (NumSet.add lineNumber ignoredLines)
      else if JsString.includes line DISABLE_NEXT_LINE then
        parse_from total (S i) rest' blockDisabled
          (if Nat.ltb (i + 1) total then NumSet.add (lineNumber + 1) ignoredLines
           else ignoredLines)
      else if JsString.includes line DISABLE_LINE then
        parse_from total (S i) rest' blockDisabled (NumSet.add lineNumber ignoredLines)
      else
        parse_from total (S i) rest' blockDisabled ignoredLines
  end.

Definition parseInlineIgnoreComments (lines : list string) : NumSet.t :=
  parse_from (List.length lines) 0 lines false NumSet.empty.

(** The loop with the block tests alone, to compare [parse_from] with. *)
Fixpoint block_only (i : nat) (rest : list string) (blockDisabled : bool)
         (ignoredLines : NumSet.t) : NumSet.t :=
  match rest with
  | [] => ignoredLines
  | line :: rest' =>
      if JsString.includes line DISABLE then
        block_only (S i) rest' true (NumSet.add (i + 1) ignoredLines)
      else if JsString.includes line ENABLE then
        block_only (S i) rest' false ignoredLines
      else
        block_only (S i) rest' blockDisabled
          (if blockDisabled then NumSet.add (i + 1) ignoredLines
           else ignoredLines)
  end.

End InlineIgnore.

(** ** Completions: a value, or a thrown error *)

Inductive Completion (E A : Type) : Type :=
| Normal (a : A)
| Throw (e : E).

Arguments Normal {E A} a.
Arguments Throw {E A} e.

(** ** Safe regular-expression execution: src/utils/safeRegex.js *)

Module SafeRegex.

Definition DEFAULT_TIMEOUT : Z := 2000.
Definition MAX_MATCHES : Z := 10000.

(** A [RegExpExecArray], as far as the scanner reads it: [match.index]
    and [match[0]]. *)
Record Match := mkMatch { index : nat; matched : string }.

(** What the regular-expression engine answers to one search. *)
Inductive Search :=
| Found (m : Match)
| NotFound
| Raised (message : string).

(** A compiled [RegExp]: whether it carries the [g] flag, and the
    engine's leftmost match in [content] at or after a position. *)
Record RegExp := mkRegExp {
  global : bool;
  search : string -> nat -> Search
}.

(** The errors [safeRegexExec] lets out. The first two are the ones it
    throws itself; their messages contain "timeout" and
    "Too many matches", so the [catch] rethrows them unchanged. An error
    of the engine whose message contains one of these words is rethrown
    as it is, any other is wrapped. *)
Inductive RegexError :=
| TimeoutError (timeout : Z)
| TooManyMatchesError
| EngineError (message : string)
| ExecutionError (message : string).

(** [regex.exec(content)] with the [lastIndex] bookkeeping of the
    language: a global expression searches from [lastIndex], leaves
    [lastIndex] after the match and resets it on failure; any other
    searches from the start and leaves [lastIndex] alone. *)
Definition exec (re : RegExp) (content : string) (lastIndex : nat)
  : Search * nat :=
  if global re then
    if Nat.ltb (String.length content) lastIndex then (NotFound, 0)
    else match search re content lastIndex with
         | Found m => (Found m, index m + String.length (matched m))
         | NotFound => (NotFound, 0)
         | Raised msg => (Raised msg, lastIndex)
         end
  else (search re content 0, lastIndex).

Definition rethrow (message : string) : RegexError :=
  if (JsString.includes message "timeout"
      || JsString.includes message "Too many matches")%bool
  then EngineError message
  else ExecutionError ("Regex execution error: " ++ message).

Section Loop.

Variable re : RegExp.
Variable content : string.
Variable timeout : Z.
(** The clock: [startTime], and the reading of [Date.now()] in the
    [k]-th round of the loop. *)
Variable startTime : Z.
Variable now : nat -> Z.

(** The [while] loop. [round] counts the rounds begun so far; the
    other arguments are the variables of the source. [None] means the
    fuel ran out. *)
Fixpoint exec_loop (fuel : nat) (round : nat) (lastIndex : nat)
         (matchCount : Z) (matches : list Match)
  : option (Completion RegexError (list Match)) :=
  match fuel with
  | O => None
  | S fuel' =>
      match exec re content lastIndex with
      | (NotFound, _) => Some (Normal matches)
      | (Raised msg, _) => Some (Throw (rethrow msg))
      | (Found m, lastIndex1) =>
          if (timeout <? now round - startTime)%Z then
            Some (Throw (TimeoutError timeout))
          else if (MAX_MATCHES <? matchCount)%Z then
            Some (Throw TooManyMatchesError)
          else
            let matchCount1 := (matchCount + 1)%Z in
            let lastIndex2 :=
              if Nat.eqb (index m) lastIndex1 then S lastIndex1 else lastIndex1 in
            exec_loop fuel' (S round) lastIndex2 matchCount1 (matches ++ [m])
      end
  end.

(** Rounds the loop can begin before the match count stops it. *)
Definition rounds : nat := Z.to_nat (MAX_MATCHES + 2).

Definition safeRegexExec : option (Completion RegexError (list Match)) :=
  exec_loop rounds 0 0 0%Z [].

End Loop.

(** The expression [/./g]: any one character but a line terminator. *)
Definition is_line_terminator (c : ascii) : bool :=
  match nat_of_ascii c with
  | 10 | 13 => true
  | _ => false
  end.

Fixpoint search_dot_aux (s : string) (i : nat) : Search :=
  match s with
  | EmptyString => NotFound
  | String c rest =>
      if is_line_terminator c then search_dot_aux rest (S i)
      else Found (mkMatch i (String c EmptyString))
  end.

Fixpoint drop (n : nat) (s : string) : string :=
  match n, s with
  | O, _ => s
  | S k, EmptyString => EmptyString
  | S k, String _ rest => drop k rest
  end.

Definition dot_g : RegExp :=
  mkRegExp true (fun content from => search_dot_aux (drop from content) from).

(** The matches of that expression in a run of one character, from
    index [k], [j] of them. *)
Definition hits (c : ascii) (k j : nat) : list Match :=
  map (fun i => mkMatch i (String c EmptyString)) (seq k j).

(** A literal expression: the text itself, with no metacharacter;
    [g] decides the flag. *)
Fixpoint search_literal_aux (lit : string) (s : string) (i : nat) : Search :=
  if prefix lit s then Found (mkMatch i lit)
  else match s with
       | EmptyString => NotFound
       | String _ rest => search_literal_aux lit rest (S i)
       end.

Definition literal (g : bool) (lit : string) : RegExp :=
  mkRegExp g (fun content from => search_literal_aux lit (drop from content) from).

End SafeRegex.

(** ** The fixed expressions of the static validator

    [validatePattern] applies seven literal regular expressions to the
    source text of a pattern with [RegExp.prototype.test]. None of them has
    an anchor, a backreference or a look-around, so [test] asks whether
    some substring belongs to a regular language; the expressions are
    written here as terms and decided by derivatives. *)

Module Rx.

Inductive rx : Type :=
| Void                          (* no string *)
| Eps                           (* the empty string *)
| Cls (p : ascii -> bool)       (* one character of a class *)
| Seq (a b : rx)
| Alt (a b : rx)
| Star (a : rx).

Fixpoint nullable (r : rx) : bool :=
  match r with
  | Void => false
  | Eps => true
  | Cls _ => false
  | Seq a b => nullable a && nullable b
  | Alt a b => nullable a || nullable b
  | Star _ => true
  end.

Fixpoint deriv (c : ascii) (r : rx) : rx :=
  match r with
  | Void => Void
  | Eps => Void
  | Cls p => if p c then Eps else Void
  | Seq a b =>
      if nullable a then Alt (Seq (deriv c a) b) (deriv c b)
      else Seq (deriv c a) b
  | Alt a b => Alt (deriv c a) (deriv c b)
  | Star a => Seq (deriv c a) (Star a)
  end.

(** The whole of [s] belongs to [r]. *)
Fixpoint accepts (r : rx) (s : string) : bool :=
  match s with
  | EmptyString => nullable r
  | String c rest => accepts (deriv c r) rest
  end.

Definition any : rx := Cls (fun _ => true).

(** [/r/.test(s)]: some substring of [s] belongs to [r]. *)
Definition test (r : rx) (s : string) : bool :=
  accepts (Seq (Star any) (Seq r (Star any))) s.

(** Classes and repetition. *)
Definition chr (c : ascii) : rx := Cls (Ascii.eqb c).
Definition not_chr (c : ascii) : rx := Cls (fun d => negb (Ascii.eqb c d)).
Definition one_of (c1 c2 : ascii) : rx :=
  Cls (fun d => Ascii.eqb c1 d || Ascii.eqb c2 d).

(** [.]: any character but a line terminator. *)
Definition dot : rx :=
  Cls (fun d => negb (Ascii.eqb d "010" || Ascii.eqb d "013")).

(** [\w] *)
Definition is_word (d : ascii) : bool :=
  let n := nat_of_ascii d in
  ((48 <=? n) && (n <=? 57) || (65 <=? n) && (n <=? 90)
   || (97 <=? n) && (n <=? 122) || (n =? 95))%nat.

(** [[1-9]] *)
Definition is_digit19 (d : ascii) : bool :=
  let n := nat_of_ascii d in ((49 <=? n) && (n <=? 57))%nat.

(** [r{n}] and [r{n,}] *)
Fixpoint times (n : nat) (r : rx) : rx :=
  match n with
  | O => Eps
  | S k => Seq r (times k r)
  end.

Definition at_least (n : nat) (r : rx) : rx := Seq (times n r) (Star r).

(** The language of an expression. *)
Inductive star (L : string -> Prop) : string -> Prop :=
| star_nil : star L EmptyString
| star_app (s1 s2 : string) : L s1 -> star L s2 -> star L (s1 ++ s2)%string.


End Rx.

Module Validator.

Import Rx.

(** The source has "/\([^)]*[+*]\)[+*]/". *)
Definition NESTED_QUANTIFIERS : rx :=
  Seq (chr "(") (Seq (Star (not_chr ")"))
    (Seq (one_of "+" "*") (Seq (chr ")") (one_of "+" "*")))).

(** The source has "/\|.*\|.*\|/". *)
Definition THREE_ALTERNATIONS : rx :=
  Seq (chr "|") (Seq (Star dot) (Seq (chr "|") (Seq (Star dot) (chr "|")))).

(** The source has "/[+*]/". *)
Definition QUANTIFIER : rx := one_of "+" "*".

(** The source alternates two groups, each bounded by "{2,}": an escaped
    dot with an escaped star, and an escaped dot with an escaped plus. *)
Definition WILDCARD_SEQUENCE : rx :=
  Alt (at_least 2 (Seq (chr ".") (chr "*")))
      (at_least 2 (Seq (chr ".") (chr "+"))).

(** The source has "/\(\w\+\){2,}\$/": the bound applies to the escaped
    closing parenthesis alone. *)
Definition WORD_GROUPS_AT_END : rx :=
  Seq (chr "(") (Seq (Cls is_word) (Seq (chr "+")
    (Seq (at_least 2 (chr ")")) (chr "$")))).

(** The source has "/\\[1-9]/". *)
Definition BACKREFERENCE : rx := Seq (chr "\") (Cls is_digit19).

(** The source has "/\[[^\]]{50,}\]/". *)
Definition LARGE_CLASS : rx :=
  Seq (chr "[") (Seq (at_least 50 (not_chr "]")) (chr "]")).

Definition W_NESTED := "Nested quantifiers detected - may cause ReDoS".
Definition W_ALTERNATIONS :=
  "Multiple alternations with quantifiers - may cause ReDoS".
Definition W_WILDCARDS := "Multiple .* or .+ in sequence - may cause ReDoS".
Definition W_WORD_GROUPS := "Repeated word boundaries at end - may cause ReDoS".
Definition W_BACKREFERENCE := "Backreferences detected - may impact performance".
Definition W_LARGE_CLASS := "Very large character class - may impact performance".

Record Validation := mkValidation { safe : bool; warnings : list string }.

(** One [if] of the source: the state is the pair of local variables
    [warnings] and [safe]. *)
Definition check (cond : bool) (warning : string) (unsafe : bool)
           (st : list string * bool) : list string * bool :=
  if cond then (fst st ++ [warning], if unsafe then false else snd st)
  else st.

Definition validatePattern (pattern : string) : Validation :=
  let st := ([], true) in
  let st := check (test NESTED_QUANTIFIERS pattern) W_NESTED true st in
  let st := check (test THREE_ALTERNATIONS pattern && test QUANTIFIER pattern)
                  W_ALTERNATIONS false st in
  let st := check (test WILDCARD_SEQUENCE pattern) W_WILDCARDS true st in
  let st := check (test WORD_GROUPS_AT_END pattern) W_WORD_GROUPS false st in
  let st := check (test BACKREFERENCE pattern) W_BACKREFERENCE false st in
  let st := check (test LARGE_CLASS pattern) W_LARGE_CLASS false st in
  mkValidation (snd st) (fst st).

End Validator.

(** The two unsafe shapes in the words of the specification, to compare
    the validator with. *)

Module ValidatorSpec.

Local Open Scope string_scope.

Definition quantifier (c : ascii) : Prop := c = "+"%char \/ c = "*"%char.




End ValidatorSpec.

(** ** Shannon entropy: src/utils/entropy.js

    The entropy is a real number here: [Math.log2] has no exact
    floating-point meaning in the language, so the embedding takes the
    mathematical function the code approximates. [for ... of] visits code
    points, which below 256 are the code units. Over the reals the order
    in which [for ... in] visits the keys of [frequencies] does not change
    the sum; the list below keeps the keys in order of first occurrence. *)

Module Entropy.

Local Open Scope R_scope.

(** [frequencies[char] = (frequencies[char] || 0) + 1] *)
Fixpoint bump (char : ascii) (frequencies : list (ascii * nat))
  : list (ascii * nat) :=
  match frequencies with
  | [] => [(char, 1%nat)]
  | (d, n) :: rest =>
      if Ascii.eqb char d then (d, (n + 1)%nat) :: rest
      else (d, n) :: bump char rest
  end.

Fixpoint count_chars (str : string) (frequencies : list (ascii * nat))
  : list (ascii * nat) :=
  match str with
  | EmptyString => frequencies
  | String char rest => count_chars rest (bump char frequencies)
  end.

(** [Math.log2] *)
Definition log2 (x : R) : R := ln x / ln 2.

Definition calculateEntropy (str : string) : R :=
  if Nat.eqb (String.length str) 0 then 0
  else
    let frequencies := count_chars str [] in
    let length := INR (String.length str) in
    fold_left
      (fun entropy (kv : ascii * nat) =>
         let probability := INR (snd kv) / length in
         entropy - probability * log2 probability)
      frequencies 0.

(** [x >= y] as the test of an [if]. *)
Definition Rgeb (x y : R) : bool := if Rge_dec x y then true else false.

Record EntropyAnalysis := mkEntropyAnalysis {
  entropy : R;
  level : string;
  isSecret : bool
}.

Definition analyzeEntropy (str : string) : EntropyAnalysis :=
  let entropy := calculateEntropy str in
  let '(level, isSecret) :=
    if Rgeb entropy 5.0 then ("high", true)
    else if Rgeb entropy 4.0 then ("medium", true)
    else if Rgeb entropy 3.5 then ("medium", false)
    else ("low", false) in
  mkEntropyAnalysis entropy level isSecret.

(** Occurrences of a character in a string, and the distinct characters
    of a string: the vocabulary of the statements about uniform strings. *)
Fixpoint occurrences (c : ascii) (s : string) : nat :=
  match s with
  | EmptyString => 0%nat
  | String d rest =>
      ((if Ascii.eqb c d then 1 else 0) + occurrences c rest)%nat
  end.

Definition distinct (s : string) : list ascii :=
  nodup ascii_dec (list_ascii_of_string s).

(** The table read as a function, its keys and the sum of its counts. *)
Fixpoint lookup (c : ascii) (frequencies : list (ascii * nat)) : nat :=
  match frequencies with
  | [] => 0
  | (d, n) :: rest => if Ascii.eqb c d then n else lookup c rest
  end.

Definition keys (frequencies : list (ascii * nat)) : list ascii :=
  map fst frequencies.

Definition total (frequencies : list (ascii * nat)) : nat :=
  list_sum (map snd frequencies).

(** One summand of the entropy, and the sum over a table. *)
Definition summand (length : R) (n : nat) : R :=
  INR n / length * log2 (INR n / length).

Definition sum_summands (length : R) (frequencies : list (ascii * nat)) : R :=
  fold_right (fun kv acc => summand length (snd kv) + acc) 0 frequencies.

(** Every character that occurs in [s] occurs [k] times. *)
Definition uniform (s : string) (k : nat) : Prop :=
  forall c, In c (list_ascii_of_string s) -> occurrences c s = k.

End Entropy.

(** ** Objects used as dictionaries *)

Module Dict.

Section WithValue.

Variable V : Type.

Definition t := list (string * V).

Definition empty : t := [].

(** [d[k]] *)
Fixpoint get (k : string) (d : t) : option V :=
  match d with
  | [] => None
  | (k', v) :: rest => if String.eqb k k' then Some v else get k rest
  end.

(** [d[k] = v]: an existing key keeps its place. *)
Fixpoint set (k : string) (v : V) (d : t) : t :=
  match d with
  | [] => [(k, v)]
  | (k', v') :: rest =>
      if String.eqb k k' then (k', v) :: rest else (k', v') :: set k v rest
  end.

(** [delete d[k]] *)
Fixpoint delete (k : string) (d : t) : t :=
  match d with
  | [] => []
  | (k', v') :: rest =>
      if String.eqb k k' then delete k rest else (k', v') :: delete k rest
  end.

(** [Object.assign(target, source)] *)
Definition assign (target source : t) : t :=
  fold_left (fun acc kv => set (fst kv) (snd kv) acc) source target.

(** [{ ...d }] *)
Definition spread (d : t) : t := assign empty d.

(** [Object.entries(d)] *)
Definition entries (d : t) : list (string * V) := d.

Definition keys (d : t) : list string := map fst d.

(** The keys of an object are unique. *)
Definition wf (d : t) : Prop := NoDup (keys d).

End WithValue.

Arguments empty {V}.

End Dict.

(** ** The content analyzer: src/scanner/analyzer.js *)

Module Analyzer.

Import SafeRegex.

Definition MAX_FILE_SIZE : Z := 10 * 1024 * 1024.
Definition MAX_LINES : Z := 100000.

(** An entry of the pattern catalog. A field that may be missing is an
    [option]. *)
Record PatternInfo := mkPatternInfo {
  name : option string;
  pattern : string;
  flags : option string;
  severity : option string;
  category : option string;
  service : option string;
  description : option string;
  confidence : option string;
  useEntropyFilter : bool
}.

Definition Patterns := Dict.t PatternInfo.

(** A custom-patterns document. *)
Record CustomPatterns := mkCustomPatterns {
  custom_patterns : option Patterns;
  disabled : option (list string)
}.

Record ContextLine := mkContextLine {
  ctx_lineNumber : nat;
  ctx_content : string;
  isTarget : bool
}.

Record Finding := mkFinding {
  f_id : string;
  f_type : string;
  f_category : string;
  f_name : option string;
  f_severity : string;
  f_description : option string;
  f_service : string;
  f_match : string;
  f_line : nat;
  f_column : Z;
  f_lineContent : string;
  f_context : list ContextLine;
  f_confidence : string;
  f_entropy_value : R;
  f_entropy_level : string
}.

Record AnalysisOptions := mkAnalysisOptions {
  minSeverity : option string;
  disabledPatterns : option (list string);
  excludeCategories : option (list string);
  opt_useEntropyFilter : bool
}.

(** [x || fallback] for a string that may be missing: the empty string
    is falsy too. *)
Definition or_else (x : option string) (fallback : string) : string :=
  match x with
  | Some s => if String.eqb s "" then fallback else s
  | None => fallback
  end.

Definition truthy (x : option string) : bool :=
  match x with
  | Some s => negb (String.eqb s "")
  | None => false
  end.

(** *** Loading the catalog *)

Definition mergePatterns (defaultPatterns : Patterns)
           (customPatterns : CustomPatterns) : Patterns :=
  let merged := Dict.spread defaultPatterns in
  let merged :=
    match custom_patterns customPatterns with
    | Some ps => Dict.assign merged ps
    | None => merged
    end in
  match disabled customPatterns with
  | Some ids => fold_left (fun m patternId => Dict.delete patternId m) ids merged
  | None => merged
  end.

(** The body of the loop of [validateAndFilterPatterns]. *)
Definition keep (validated : Patterns) (kv : string * PatternInfo) : Patterns :=
  let validation := Validator.validatePattern (pattern (snd kv)) in
  if negb (Validator.safe validation) then validated
  else Dict.set (fst kv) (snd kv) validated.

Definition validateAndFilterPatterns (patterns : Patterns) : Patterns :=
  fold_left keep (Dict.entries patterns) Dict.empty.

(** [loadPatterns]. [builtin] is the [patterns] member of
    detectors/services.json, [None] when the file cannot be loaded or
    has no such member; [custom] is the custom document, [None] when no
    path was given, the file does not exist or it cannot be loaded. *)
Definition loadPatterns (builtin : option Patterns)
           (custom : option CustomPatterns) : Patterns :=
  let patterns := match builtin with Some ps => ps | None => Dict.empty end in
  let patterns :=
    match custom with
    | Some doc => mergePatterns patterns doc
    | None => patterns
    end in
  validateAndFilterPatterns patterns.






(** *** Skipping patterns *)

Definition severityLevels (s : option string) : option Z :=
  match s with
  | Some s =>
      if String.eqb s "low" then Some 1%Z
      else if String.eqb s "medium" then Some 2%Z
      else if String.eqb s "high" then Some 3%Z
      else if String.eqb s "critical" then Some 4%Z
      else None
  | None => None
  end.

Definition level_or_2 (s : option string) : Z :=
  match severityLevels s with Some n => n | None => 2%Z end.

Definition shouldSkipPattern (patternId : string) (patternInfo : PatternInfo)
           (options : AnalysisOptions) : bool :=
  if match disabledPatterns options with
     | Some ids => existsb (String.eqb patternId) ids
     | None => false
     end
  then true
  else if (truthy (minSeverity options)
           && (level_or_2 (severity patternInfo)
               <? level_or_2 (minSeverity options))%Z)%bool
  then true
  else if match excludeCategories options, category patternInfo with
          | Some cats, Some c => existsb (String.eqb c) cats
          | _, _ => false
          end
  then true
  else false.

(** *** Context lines *)

Fixpoint mapi_from {A B : Type} (f : A -> nat -> B) (i : nat) (l : list A)
  : list B :=
  match l with
  | [] => []
  | x :: rest => f x i :: mapi_from f (S i) rest
  end.

(** [lines.slice(start, stop)] *)
Definition slice {A : Type} (start stop : nat) (l : list A) : list A :=
  firstn (stop - start) (skipn start l).

Definition getContext (lines : list string) (centerLine : nat)
           (contextLines : nat) : list ContextLine :=
  let start := Nat.max 0 (centerLine - contextLines) in
  let stop := Nat.min (List.length lines - 1) (centerLine + contextLines) in
  mapi_from
    (fun line index =>
       mkContextLine (start + index + 1) line (Nat.eqb (start + index) centerLine))
    0 (slice start (stop + 1) lines).

(** *** The file system, as the analyzer calls it *)

Inductive FsError :=
| ENOENT
| EACCES
| OtherError (message : string).

Record FileSystem := mkFileSystem {
  (** [(await fs.stat(path)).size] *)
  stat_size : string -> Completion FsError Z;
  (** [fsPromises.open(path, 'r')] and [fd.read(buffer, 0, n, 0)]: the
      bytes actually read, at most [n] of them. *)
  open_read : string -> nat -> Completion FsError (list ascii);
  (** [fs.readFile(path, 'utf8')] *)
  readFile : string -> Completion FsError string
}.

Definition isBinaryFile (fs : FileSystem) (filePath : string) : bool :=
  match open_read fs filePath 512 with
  | Normal bytesRead => existsb (fun b => Ascii.eqb b zero) bytesRead
  | Throw _ => false
  end.

(** *** Analysis of one file *)

Section WithEngine.

(** [findMatches]: the matches of a pattern in a text. It catches
    every error of compilation and execution and then answers with no
    match, so it is a function into lists. *)
Variable findMatches : string -> PatternInfo -> list Match.

(** The body of the loop over the matches of one pattern. *)
Definition visit_match (content : string) (lines : list string)
           (ignoredLines : NumSet.t) (options : AnalysisOptions)
           (patternId : string) (patternInfo : PatternInfo)
           (findings : list Finding) (m : Match) : list Finding :=
  let lineNumber :=
    List.length (JsString.split JsString.newline (JsString.take (index m) content)) in
  if NumSet.has ignoredLines lineNumber then findings
  else
    let lineContent := nth (lineNumber - 1) lines "" in
    let entropyAnalysis := Entropy.analyzeEntropy (matched m) in
    let finding :=
      mkFinding patternId
        (or_else (category patternInfo) "unknown")
        (or_else (category patternInfo) "unknown")
        (name patternInfo)
        (or_else (severity patternInfo) "medium")
        (description patternInfo)
        (or_else (service patternInfo) "unknown")
        (matched m)
        lineNumber
        (Z.of_nat (index m)
         - JsString.lastIndexOf JsString.newline content (Z.of_nat (index m) - 1))%Z
        (JsString.trim lineContent)
        (getContext lines (lineNumber - 1) 2)
        (or_else (confidence patternInfo) "medium")
        (Entropy.entropy entropyAnalysis)
        (Entropy.level entropyAnalysis) in
    if (opt_useEntropyFilter options && useEntropyFilter patternInfo)%bool then
      if negb (Entropy.isSecret entropyAnalysis) then findings
      else findings ++ [finding]
    else findings ++ [finding].

(** The body of the loop over the patterns. *)
Definition visit_pattern (content : string) (lines : list string)
           (ignoredLines : NumSet.t) (options : AnalysisOptions)
           (findings : list Finding) (kv : string * PatternInfo)
  : list Finding :=
  if shouldSkipPattern (fst kv) (snd kv) options then findings
  else
    fold_left
      (visit_match content lines ignoredLines options (fst kv) (snd kv))
      (findMatches content (snd kv)) findings.

(** The [try] block of [analyzeContent]. *)
Definition analyzeContent_try (fs : FileSystem) (patterns : Patterns)
           (filePath : string) (options : AnalysisOptions)
  : Completion FsError (list Finding) :=
  match stat_size fs filePath with
  | Throw e => Throw e
  | Normal size =>
      if (MAX_FILE_SIZE <? size)%Z then Normal []
      else if isBinaryFile fs filePath then Normal []
      else
        match readFile fs filePath with
        | Throw e => Throw e
        | Normal content =>
            let lines := JsString.split JsString.newline content in
            if (MAX_LINES <? Z.of_nat (List.length lines))%Z then Normal []
            else
              let ignoredLines := InlineIgnore.parseInlineIgnoreComments lines in
              Normal (fold_left
                        (visit_pattern content lines ignoredLines options)
                        (Dict.entries patterns) [])
        end
  end.

(** [analyzeContent], with its [catch]: all three branches of the
    handler return the empty list. *)
Definition analyzeContent (fs : FileSystem) (patterns : Patterns)
           (filePath : string) (options : AnalysisOptions) : list Finding :=
  match analyzeContent_try fs patterns filePath options with
  | Normal findings => findings
  | Throw ENOENT => []
  | Throw EACCES => []
  | Throw (OtherError _) => []
  end.

End WithEngine.

(** [findMatches] over a regular-expression engine: [compile] is
    [new RegExp(source, flags)], [None] when it throws; the clock gives
    the readings of [Date.now()]. *)
Definition findMatches_with
           (compile : string -> string -> option RegExp)
           (startTime : Z) (now : nat -> Z)
           (content : string) (patternInfo : PatternInfo) : list Match :=
  match compile (pattern patternInfo) (or_else (flags patternInfo) "gi") with
  | None => []
  | Some regex =>
      match safeRegexExec regex content 2000 startTime now with
      | Some (Normal matches) => matches
      | _ => []
      end
  end.

(** A file system holding regular files only. *)
Inductive FileEntry :=
| Missing
| Unreadable (size : Z)
| Regular (bytes : string).

Definition fs_of (entry : string -> FileEntry) : FileSystem :=
  mkFileSystem
    (fun path =>
       match entry path with
       | Missing => Throw ENOENT
       | Unreadable size => Normal size
       | Regular bytes => Normal (Z.of_nat (String.length bytes))
       end)
    (fun path n =>
       match entry path with
       | Missing => Throw ENOENT
       | Unreadable _ => Throw EACCES
       | Regular bytes => Normal (firstn n (list_ascii_of_string bytes))
       end)
    (fun path =>
       match entry path with
       | Missing => Throw ENOENT
       | Unreadable _ => Throw EACCES
       | Regular bytes => Normal bytes
       end).

(** The inputs the guards of [analyzeContent] are for: the file does not
    exist, it may not be read, it is larger than 10 MiB, it has more than
    100,000 lines, or there is a null byte among the bytes read from its
    first 512. *)
Inductive guarded (fs : FileSystem) (filePath : string) : Prop :=
| file_missing :
    stat_size fs filePath = Throw ENOENT -> guarded fs filePath
| stat_denied :
    stat_size fs filePath = Throw EACCES -> guarded fs filePath
| read_denied :
    readFile fs filePath = Throw EACCES -> guarded fs filePath
| too_large (size : Z) :
    stat_size fs filePath = Normal size -> (MAX_FILE_SIZE < size)%Z ->
    guarded fs filePath
| too_many_lines (content : string) :
    readFile fs filePath = Normal content ->
    (MAX_LINES < Z.of_nat (List.length (JsString.split JsString.newline content)))%Z ->
    guarded fs filePath
| binary (bytesRead : list ascii) :
    open_read fs filePath 512 = Normal bytesRead -> In zero bytesRead ->
    guarded fs filePath.

End Analyzer.

(** ** JSON text of strings and numbers *)

Module Json.

Definition dquote : ascii := "034"%char.
Definition backslash : ascii := "092"%char.

Definition hex_digit (n : nat) : ascii :=
  match n with
  | 0 => "0" | 1 => "1" | 2 => "2" | 3 => "3" | 4 => "4" | 5 => "5"
  | 6 => "6" | 7 => "7" | 8 => "8" | 9 => "9" | 10 => "a" | 11 => "b"
  | 12 => "c" | 13 => "d" | 14 => "e" | _ => "f"
  end%char.

(** The text of one code unit inside a JSON string (QuoteJSONString). *)
Definition escape_char (c : ascii) : string :=
  let n := nat_of_ascii c in
  match n with
  | 8 => String backslash "b"
  | 9 => String backslash "t"
  | 10 => String backslash "n"
  | 12 => String backslash "f"
  | 13 => String backslash "r"
  | 34 => String backslash (String dquote "")
  | 92 => String backslash (String backslash "")
  | _ =>
      if (n <? 32)%nat then
        String backslash
          (String "u" (String "0" (String "0"
             (String (hex_digit (n / 16)) (String (hex_digit (n mod 16)) "")))))
      else String c ""
  end.

Fixpoint escape (s : string) : string :=
  match s with
  | EmptyString => EmptyString
  | String c rest => (escape_char c ++ escape rest)%string
  end.

(** [JSON.stringify(s)] for a string. *)
Definition quote (s : string) : string :=
  String dquote (escape s ++ String dquote "")%string.

(** [JSON.stringify(n)], also [String(n)], for a natural number. *)
Definition number (n : nat) : string :=
  DecimalString.NilEmpty.string_of_uint (Nat.to_uint n).

(** ["key":] *)
Definition member (key : string) : string :=
  (quote key ++ ":")%string.






End Json.

(** ** The baseline manager: src/baseline/BaselineManager.js *)

Module Baseline.

Import Analyzer.

Record BaselineEntry := mkBaselineEntry {
  b_type : string;
  b_name : option string;
  b_severity : string;
  b_hash : string;
  b_reviewed : bool;
  b_reviewedBy : option string;
  b_reviewDate : option string;
  b_reason : string;
  b_line : nat;
  b_match : string
}.

(** A baseline document; [files] may be missing from a document read
    from disk. *)
Record BaselineDoc := mkBaselineDoc {
  version : string;
  generatedAt : string;
  totalFindings : nat;
  files : option (Dict.t BaselineEntry)
}.

(** The findings of one file. *)
Record FileResult := mkFileResult {
  file : string;
  findings : list Finding
}.

Section WithDigest.

(** [crypto.createHash('sha256').update(data).digest('hex')] *)
Variable sha256_hex : string -> string.

(** The text hashed: the object [{file, line, id, match}] as
    [JSON.stringify] writes it. *)
Definition finding_data (finding : Finding) (filePath : string) : string :=
  ("{" ++ Json.member "file" ++ Json.quote filePath
   ++ "," ++ Json.member "line" ++ Json.number (f_line finding)
   ++ "," ++ Json.member "id" ++ Json.quote (f_id finding)
   ++ "," ++ Json.member "match" ++ Json.quote (f_match finding)
   ++ "}")%string.

Definition generateFindingHash (finding : Finding) (filePath : string)
  : string :=
  sha256_hex (finding_data finding filePath).

(** The key of a finding in [baseline.files]. *)
Definition file_key (filePath : string) (line : nat) : string :=
  (filePath ++ ":" ++ Json.number line)%string.

(** [this.baseline] is [None] until a baseline is loaded. *)
Definition isBaselined (baseline : option BaselineDoc) (finding : Finding)
           (filePath : string) : bool :=
  match baseline with
  | None => false
  | Some doc =>
      match files doc with
      | None => false
      | Some entries =>
          let key := file_key filePath (f_line finding) in
          match Dict.get key entries with
          | None => false
          | Some baselineEntry =>
              let currentHash := generateFindingHash finding filePath in
              String.eqb (b_hash baselineEntry) currentHash
          end
      end
  end.

Definition filterFindings (baseline : option BaselineDoc)
           (findings : list FileResult) : list FileResult :=
  match baseline with
  | None => findings
  | Some _ =>
      fold_left
        (fun filtered fileResult =>
           let filteredFileFindings :=
             filter (fun finding =>
                       negb (isBaselined baseline finding (file fileResult)))
                    (Baseline.findings fileResult) in
           if (0 <? List.length filteredFileFindings)%nat then
             filtered ++ [mkFileResult (file fileResult) filteredFileFindings]
           else filtered)
        findings []
  end.

(** [generateBaseline], without the write to disk; [timestamp] is the
    reading of the clock and [autoReason] the option of that name. *)
Definition generateBaseline (timestamp : string) (autoReason : option string)
           (scanFindings : list FileResult) : BaselineDoc :=
  let '(count, entries) :=
    fold_left
      (fun (acc : nat * Dict.t BaselineEntry) fileResult =>
         fold_left
           (fun (acc : nat * Dict.t BaselineEntry) finding =>
              let hash := generateFindingHash finding (file fileResult) in
              let key := file_key (file fileResult) (f_line finding) in
              (S (fst acc),
               Dict.set key
                 (mkBaselineEntry (f_id finding) (f_name finding)
                    (f_severity finding) hash false None None
                    (or_else autoReason "Baselined during initial scan")
                    (f_line finding)
                    (JsString.take 50 (f_match finding)))
                 (snd acc)))
           (Baseline.findings fileResult) acc)
      scanFindings (0, Dict.empty) in
  mkBaselineDoc "1.0.0" timestamp count (Some entries).

(** [loadBaseline]: the document on disk, or a fresh empty one. *)
Definition loadBaseline (timestamp : string) (onDisk : option BaselineDoc)
  : BaselineDoc :=
  match onDisk with
  | Some doc => doc
  | None => mkBaselineDoc "1.0.0" timestamp 0 (Some Dict.empty)
  end.

(** The findings of a file that the baseline does not cover. *)
Definition survivors (baseline : option BaselineDoc) (fileResult : FileResult)
  : list Finding :=
  filter (fun finding =>
            negb (isBaselined baseline finding (file fileResult)))
         (Baseline.findings fileResult).


End WithDigest.

End Baseline.

(** ** The scan orchestrator: src/index.js and src/scanner/analyzerWorker.js *)

Module Detector.

Import Analyzer Baseline.

(** [this.options], as far as a scan reads them. *)
Record Options := mkOptions {
  customPatternsPath : option string;
  severity : string;
  disabledPatterns : list string;
  excludeCategories : list string;
  useWorkers : bool;
  useBaseline : bool;
  baselinePath : string;
  useEntropyFilter : bool
}.

Record ScanResult := mkScanResult {
  scanTime : string;
  totalFiles : nat;
  filesWithIssues : nat;
  summary : Dict.t Z;
  findings : list FileResult
}.

(** What a worker posts back for one task. *)
Record WorkerResult := mkWorkerResult {
  w_filePath : string;
  w_findings : list Finding;
  w_error : option string
}.

Definition formatResults (timestamp : string) (totalFiles : nat)
           (findings : list FileResult) : ScanResult :=
  let summary0 : Dict.t Z :=
    [("critical", 0%Z); ("high", 0%Z); ("medium", 0%Z); ("low", 0%Z)] in
  let summary :=
    fold_left
      (fun summary fileResult =>
         fold_left
           (fun summary finding =>
              let old := match Dict.get (f_severity finding) summary with
                         | Some n => n
                         | None => 0%Z
                         end in
              Dict.set (f_severity finding) (old + 1)%Z summary)
           (Baseline.findings fileResult) summary)
      findings summary0 in
  mkScanResult timestamp totalFiles (List.length findings) summary findings.

Section WithWorld.

Variable findMatches : string -> PatternInfo -> list SafeRegex.Match.
Variable sha256_hex : string -> string.
Variable fs : FileSystem.
(** The catalog shipped with the package. *)
Variable builtin : option Patterns.
(** The custom-patterns file at a path, when it exists and loads. *)
Variable customFile : string -> option CustomPatterns.
(** The baseline file at a path, when it exists and loads. *)
Variable baselineFile : string -> option BaselineDoc.
(** The reading of the clock when a result or a baseline is stamped. *)
Variable timestamp : string.

(** [new ContentAnalyzer(customPatternsPath)]: the analyzer is its
    loaded catalog. *)
Definition new_ContentAnalyzer (path : option string) : Patterns :=
  loadPatterns builtin
    (match path with
     | Some p => if String.eqb p "" then None else customFile p
     | None => None
     end).

Definition analysisOptions (options : Options) : AnalysisOptions :=
  mkAnalysisOptions (Some (severity options))
    (Some (disabledPatterns options))
    (Some (excludeCategories options))
    (useEntropyFilter options).

(** The baseline step shared by both strategies. *)
Definition applyBaseline (options : Options) (results : list FileResult)
  : list FileResult :=
  if useBaseline options then
    filterFindings sha256_hex
      (Some (loadBaseline timestamp (baselineFile (baselinePath options))))
      results
  else results.

Definition scanSingleThreaded (options : Options) (files : list string)
  : ScanResult :=
  let analyzer := new_ContentAnalyzer (customPatternsPath options) in
  let results :=
    fold_left
      (fun results file =>
         let findings :=
           analyzeContent findMatches fs analyzer file (analysisOptions options) in
         if (0 <? List.length findings)%nat then
           results ++ [mkFileResult file findings]
         else results)
      files [] in
  formatResults timestamp (List.length files) (applyBaseline options results).

(** The message handler of analyzerWorker.js. The worker builds its
    analyzer with [new ContentAnalyzer()], without a path. *)
Definition worker (task : string * AnalysisOptions) : WorkerResult :=
  let analyzer := new_ContentAnalyzer None in
  mkWorkerResult (fst task)
    (analyzeContent findMatches fs analyzer (fst task) (snd task)) None.

(** [scanParallel]. [Promise.all] gives the results in the order of
    the tasks, whichever worker finishes first; the pool is taken to
    have at least one worker, so that every task is answered. *)
Definition scanParallel (options : Options) (files : list string)
  : ScanResult :=
  let tasks := map (fun file => (file, analysisOptions options)) files in
  let results := map worker tasks in
  let findings :=
    map (fun r => mkFileResult (w_filePath r) (w_findings r))
        (filter (fun r =>
                   match w_error r with
                   | Some _ => false
                   | None => (0 <? List.length (w_findings r))%nat
                   end)
                results) in
  formatResults timestamp (List.length files) (applyBaseline options findings).

(** [scan], after the files are listed. *)
Definition scan (options : Options) (files : list string) : ScanResult :=
  if (useWorkers options && (10 <=? List.length files)%nat)%bool
  then scanParallel options files
  else scanSingleThreaded options files.

End WithWorld.

End Detector.

(** ** Concrete inputs for the scenarios *)

Module Scenario.

Import Analyzer.

(** [lines.join('\n')] *)
Fixpoint join_lines (lines : list string) : string :=
  match lines with
  | [] => ""
  | [l] => l
  | l :: rest => (l ++ String JsString.newline (join_lines rest))%string
  end.

(** An engine for sources that are plain text, searched in a content
    that holds the letters of the source in the same case only. *)
Definition literal_engine (source flags : string) : option SafeRegex.RegExp :=
  Some (SafeRegex.literal (JsString.includes flags "g") source).

(** [findMatches] over that engine, with a clock that stands still. *)
Definition findMatches : string -> PatternInfo -> list SafeRegex.Match :=
  findMatches_with literal_engine 0%Z (fun _ => 0%Z).

Definition KEY := "AKIA1234567890123456".

Definition key_pattern : PatternInfo :=
  mkPatternInfo (Some "Access key") KEY None (Some "critical")
    (Some "cloud") (Some "aws") None (Some "high") false.

Definition catalog : Patterns := [("access_key", key_pattern)].

Definition low_options : AnalysisOptions :=
  mkAnalysisOptions (Some "low") (Some []) (Some []) false.

(** A comment asking to skip the next line, then two lines with the
    same key. *)
Definition suppressed_lines : list string :=
  [ "// hardcoded-detector:disable-next-line";
    "const a = AKIA1234567890123456;";
    "const b = AKIA1234567890123456;" ].

(** The same two lines after an ordinary comment. *)
Definition plain_lines : list string :=
  [ "// the keys";
    "const a = AKIA1234567890123456;";
    "const b = AKIA1234567890123456;" ].

Definition one_file (path : string) (lines : list string)
  : string -> FileEntry :=
  fun p => if String.eqb p path then Regular (join_lines lines) else Missing.

(** A file system that answers the same for every path. *)
Definition constant_fs (size : Completion FsError Z)
           (bytesRead : Completion FsError (list ascii))
           (content : Completion FsError string) : FileSystem :=
  mkFileSystem (fun _ => size) (fun _ _ => bytesRead) (fun _ => content).

(** 100,000 line feeds: 100,001 empty lines. *)
Definition many_lines : string :=
  JsString.repeat JsString.newline (Z.to_nat 100000).

(** Thirty-two distinct characters. *)
Definition thirty_two : string := "ABCDEFGHIJKLMNOPQRSTUVWXYZ012345".

(** A finding of [key_pattern] on line 2 of a file, and the finding of
    another key on the same line. *)
Definition finding_of (text : string) : Finding :=
  mkFinding "access_key" "cloud" "cloud" (Some "Access key") "critical" None
    "aws" text 2 11%Z "const a = KEY;" [] "high" 0%R "low".

Definition old_finding : Finding := finding_of KEY.
Definition new_finding : Finding := finding_of "AKIA9999999999999999".

(** A digest that is the text itself: the simplest ideal hash. *)
Definition plain_digest (data : string) : string := data.

Definition old_baseline : Baseline.BaselineDoc :=
  Baseline.generateBaseline plain_digest "2024-01-01T00:00:00.000Z" None
    [Baseline.mkFileResult "a.js" [old_finding]].

(** A custom document that switches the one built-in pattern off, and a
    detector configured with it. *)
Definition custom_doc : CustomPatterns :=
  mkCustomPatterns None (Some ["access_key"]).

Definition custom_file (path : string) : option CustomPatterns :=
  if String.eqb path "custom.json" then Some custom_doc else None.

Definition custom_options : Detector.Options :=
  Detector.mkOptions (Some "custom.json") "low" [] [] true false
    ".hardcoded-detector-baseline.json" false.

Definition no_baseline (path : string) : option Baseline.BaselineDoc := None.

Definition stamp : string := "2024-01-01T00:00:00.000Z".

(** A built-in catalog with an unsafe pattern and a pattern to replace,
    and a custom document that replaces one, adds an unsafe one and
    disables a third. *)
Definition nested_pattern : PatternInfo :=
  mkPatternInfo (Some "Nested") "(a+)+b" None (Some "low") None None None None
    false.


Definition token_pattern : PatternInfo :=
  mkPatternInfo (Some "Token") "tok_[0-9a-f]{32}" None (Some "high") None None
    None None false.


Definition builtin_catalog : Patterns :=
  [("access_key", key_pattern); ("nested", nested_pattern);
   ("token", token_pattern)].


End Scenario.

(** * Further definitions: the rest of the modules *)

From Stdlib Require Import Sorted.

(** ** The state of the inline-ignore loop *)

Module IgnoreBlocks.

Import InlineIgnore.

(** [blockDisabled] after one line, and after a list of lines. *)
Definition next_block (blockDisabled : bool) (line : string) : bool :=
  if JsString.includes line DISABLE then true
  else if JsString.includes line ENABLE then false
  else blockDisabled.

Fixpoint block_after (blockDisabled : bool) (lines : list string) : bool :=
  match lines with
  | [] => blockDisabled
  | line :: rest => block_after (next_block blockDisabled line) rest
  end.

(** A file with a comment line saying disable, two lines, a comment line
    saying enable and one more line. *)
Definition block_example : list string :=
  [ "const a = 1;";
    "/* hardcoded-detector:disable */";
    "const b = 2;";
    "const c = 3;";
    "/* hardcoded-detector:enable */";
    "const d = 4;" ].

End IgnoreBlocks.

(** ** [testPatternSafety] and engines that behave *)

Module SafeRegexMore.

Import SafeRegex.

(** The argument of [testPatternSafety]: a source text or a compiled
    expression. *)
Inductive PatternArg :=
| Source (source : string)
| Compiled (regex : RegExp).

Definition testString : string := JsString.repeat "a" 1000.

(** [testPatternSafety]. [compile] is [new RegExp(source, flags)], which
    throws outside the [try]; inside it every error means [false]. The
    outer [option] is the fuel of the loop. *)
Definition testPatternSafety (compile : string -> string -> option RegExp)
           (pattern : PatternArg) (timeout startTime : Z) (now : nat -> Z)
  : option (Completion string bool) :=
  match
    match pattern with
    | Source source => compile source "g"
    | Compiled regex => Some regex
    end
  with
  | None => Some (Throw "SyntaxError")
  | Some regex =>
      match safeRegexExec regex testString timeout startTime now with
      | Some (Normal _) => Some (Normal true)
      | Some (Throw _) => Some (Normal false)
      | None => None
      end
  end.

(** An engine that, asked from a position inside the content, answers
    with a match at or after that position and inside the content. *)
Definition well_behaved (re : RegExp) (content : string) : Prop :=
  forall from m,
    from <= String.length content ->
    search re content from = Found m ->
    from <= index m
    /\ index m + String.length (matched m) <= String.length content.

(** An engine that raises no error on a content, and a clock that stays
    within the timeout. *)
Definition never_raises (re : RegExp) (content : string) : Prop :=
  forall from message, search re content from <> Raised message.

Definition in_time (timeout startTime : Z) (now : nat -> Z) : Prop :=
  forall round, (now round - startTime <= timeout)%Z.

End SafeRegexMore.

(** ** The other entropy helpers of src/utils/entropy.js *)

Module EntropyMore.

Import Entropy.

Local Open Scope R_scope.

(** [isHighEntropy(str, threshold = 4.5)] *)
Definition isHighEntropy (str : string) (threshold : option R) : bool :=
  Rgeb (calculateEntropy str)
       (match threshold with Some t => t | None => 4.5 end).

(** [entropyFilter(value, { minEntropy = 4.0, minLength = 8 })]; a
    member that is not given has its default. *)
Definition entropyFilter (value : string) (minEntropy : option R)
           (minLength : option nat) : bool :=
  let minEntropy := match minEntropy with Some e => e | None => 4.0 end in
  let minLength := match minLength with Some n => n | None => 8%nat end in
  if Nat.ltb (String.length value) minLength then true
  else Rgeb (calculateEntropy value) minEntropy.

End EntropyMore.

(** ** The rest of the analyzer: src/scanner/analyzer.js *)

Module AnalyzerMore.

Import Analyzer.

(** [pattern.category === category], for members that may be missing. *)
Definition same_member (x y : option string) : bool :=
  match x, y with
  | Some a, Some b => String.eqb a b
  | None, None => true
  | _, _ => false
  end.

(** The [reduce] of the two getters: every pair is written into the
    accumulator. *)
Definition collect (entries : list (string * PatternInfo)) : Patterns :=
  fold_left (fun acc kv => Dict.set (fst kv) (snd kv) acc) entries Dict.empty.

Definition getPatternsByCategory (patterns : Patterns)
           (category : option string) : Patterns :=
  collect (filter (fun kv => same_member (Analyzer.category (snd kv)) category)
                  (Dict.entries patterns)).

Definition getPatternsByService (patterns : Patterns)
           (service : option string) : Patterns :=
  collect (filter (fun kv => same_member (Analyzer.service (snd kv)) service)
                  (Dict.entries patterns)).

(** The line of a match, as [analyzeContent] computes it. *)
Definition line_of (content : string) (m : SafeRegex.Match) : nat :=
  List.length
    (JsString.split JsString.newline
       (JsString.take (SafeRegex.index m) content)).

(** Where a finding comes from: a pattern of the catalog that the
    options do not skip, and a match of it on a line that is not
    ignored; if the entropy filter applies, the match is a secret for
    the classifier. *)
Definition explained
           (findMatches : string -> PatternInfo -> list SafeRegex.Match)
           (patterns : Patterns) (options : AnalysisOptions)
           (content : string) (f : Finding) : Prop :=
  exists p m,
    In (f_id f, p) patterns
    /\ shouldSkipPattern (f_id f) p options = false
    /\ In m (findMatches content p)
    /\ f_match f = SafeRegex.matched m
    /\ f_line f = line_of content m
    /\ NumSet.has
         (InlineIgnore.parseInlineIgnoreComments
            (JsString.split JsString.newline content)) (f_line f) = false
    /\ f_severity f = or_else (severity p) "medium"
    /\ f_category f = or_else (category p) "unknown"
    /\ ((opt_useEntropyFilter options && useEntropyFilter p)%bool = true ->
        Entropy.isSecret (Entropy.analyzeEntropy (f_match f)) = true).

(** Options that differ in the minimum severity only. *)
Definition with_minSeverity (options : AnalysisOptions) (level : string)
  : AnalysisOptions :=
  mkAnalysisOptions (Some level) (disabledPatterns options)
    (excludeCategories options) (opt_useEntropyFilter options).

(** Occurrences of a character. *)
Fixpoint count_char (c : ascii) (s : string) : nat :=
  match s with
  | EmptyString => 0
  | String d rest => (if Ascii.eqb d c then 1 else 0) + count_char c rest
  end.

(** A pattern marked for the entropy filter, a file that holds its text,
    and options that switch the filter on. *)
Definition random_pattern : PatternInfo :=
  mkPatternInfo (Some "Generic secret") Scenario.thirty_two None (Some "high")
    (Some "generic") None None None true.

Definition random_catalog : Patterns := [("generic_secret", random_pattern)].

Definition filter_options : AnalysisOptions :=
  mkAnalysisOptions (Some "low") (Some []) (Some []) true.

Definition random_lines : list string :=
  ["secret = ABCDEFGHIJKLMNOPQRSTUVWXYZ012345"].

End AnalyzerMore.

(** * Properties *)

Unset Implicit Arguments.

Module NumSetFacts.

Lemma has_add (n m : nat) (s : NumSet.t) :
  NumSet.has (NumSet.add n s) m = (Nat.eqb m n || NumSet.has s m)%bool.
Proof.
  unfold NumSet.add. destruct (NumSet.has s n) eqn:E.
  - destruct (Nat.eqb_spec m n) as [->|]; simpl; [now rewrite E | reflexivity].
  - unfold NumSet.has. rewrite existsb_app. simpl.
    rewrite orb_false_r. apply orb_comm.
Qed.

End NumSetFacts.

(** ** Strings *)

Module JsStringFacts.

Lemma append_nil_r (s : string) : (s ++ "")%string = s.
Proof. induction s as [|c s IH]; simpl; [reflexivity | now rewrite IH]. Qed.


Lemma length_append (a b : string) :
  String.length (a ++ b) = String.length a + String.length b.
Proof. induction a as [|x a IH]; simpl; [reflexivity | now rewrite IH]. Qed.

Lemma prefix_append (a b s : string) :
  prefix (a ++ b) s = true -> prefix a s = true.
Proof.
  revert s. induction a as [|x a IH]; intros s H.
  - now destruct s.
  - destruct s as [|y s]; simpl in *; [discriminate|].
    destruct (ascii_dec x y); [now apply IH | discriminate].
Qed.

Lemma includes_unfold (s sub : string) :
  JsString.includes s sub
  = if prefix sub s then true
    else match s with
         | EmptyString => false
         | String _ rest => JsString.includes rest sub
         end.
Proof. destruct s; reflexivity. Qed.

(** A text that contains [a ++ b] contains [a]. *)
Lemma includes_append (s a b : string) :
  JsString.includes s (a ++ b) = true -> JsString.includes s a = true.
Proof.
  induction s as [|c s IH];
    rewrite (includes_unfold _ (a ++ b)), (includes_unfold _ a); intros H.
  - destruct (prefix (a ++ b) "") eqn:E; [|discriminate].
    now rewrite (prefix_append _ _ _ E).
  - destruct (prefix (a ++ b) (String c s)) eqn:E.
    + now rewrite (prefix_append _ _ _ E).
    + rewrite (IH H). now destruct (prefix a (String c s)).
Qed.

Lemma length_repeat (c : ascii) (n : nat) :
  String.length (JsString.repeat c n) = n.
Proof. induction n; simpl; congruence. Qed.

End JsStringFacts.

(** ** Inline ignore comments *)

Module InlineIgnoreFacts.

Import InlineIgnore.

(** Both one-line sentinels begin with the block sentinel. *)
Lemma next_line_is_disable (line : string) :
  JsString.includes line DISABLE_NEXT_LINE = true ->
  JsString.includes line DISABLE = true.
Proof. apply (JsStringFacts.includes_append line DISABLE "-next-line"). Qed.

Lemma disable_line_is_disable (line : string) :
  JsString.includes line DISABLE_LINE = true ->
  JsString.includes line DISABLE = true.
Proof. apply (JsStringFacts.includes_append line DISABLE "-line"). Qed.

Lemma parse_from_block_only (total : nat) (rest : list string) :
  forall i blockDisabled ignoredLines,
    parse_from total i rest blockDisabled ignoredLines
    = block_only i rest blockDisabled ignoredLines.
Proof.
  induction rest as [|line rest IH]; intros i b ig; simpl; [reflexivity|].
  destruct (JsString.includes line DISABLE) eqn:D; [apply IH|].
  destruct (JsString.includes line ENABLE); [apply IH|].
  destruct b; [apply IH|].
  destruct (JsString.includes line DISABLE_NEXT_LINE) eqn:N.
  { apply next_line_is_disable in N. congruence. }
  destruct (JsString.includes line DISABLE_LINE) eqn:L.
  { apply disable_line_is_disable in L. congruence. }
  apply IH.
Qed.

End InlineIgnoreFacts.

(** ** C1: the disable-next-line comment *)

Module C1.

Import InlineIgnore Analyzer Scenario.

(** C1 (the code departs from the claim). The claim: a line with the
    disable-next-line sentinel adds exactly the number of the following
    line to the ignored set, so that a key on an adjacent unmarked line is
    still reported. The code: the sentinel contains the block sentinel
    [hardcoded-detector:disable], which is tested first; the comment on
    line 1 opens a block, lines 1, 2 and 3 are all ignored and the key on
    the unmarked line 3 is not reported, while the same lines after an
    ordinary comment give a finding on line 2 and on line 3. *)
Theorem disable_next_line_opens_block :
  parseInlineIgnoreComments suppressed_lines = [1; 2; 3]
  /\ map f_line
       (analyzeContent findMatches (fs_of (one_file "a.js" suppressed_lines))
          catalog "a.js" low_options) = []
  /\ map f_line
       (analyzeContent findMatches (fs_of (one_file "a.js" plain_lines))
          catalog "a.js" low_options) = [2; 3].
Proof. repeat split; lazy; reflexivity. Qed.

(** In general the two one-line tests of the loop are never reached with
    a positive answer: the parser is the block parser. *)
Lemma parser_is_block_parser (lines : list string) :
  parseInlineIgnoreComments lines = block_only 0 lines false NumSet.empty.
Proof. apply InlineIgnoreFacts.parse_from_block_only. Qed.

End C1.

(** ** C5: the ceiling on the number of matches *)

Module C5.

Import SafeRegex.

Lemma rounds_value : Z.of_nat rounds = (MAX_MATCHES + 2)%Z.
Proof. unfold rounds, MAX_MATCHES. rewrite Z2Nat.id; lia. Qed.

(** The loop always ends within its fuel: the count of matches grows by
    one in every round and stops the loop beyond the ceiling. *)
Lemma exec_loop_total (re : RegExp) (content : string) (timeout startTime : Z)
      (now : nat -> Z) :
  forall fuel round lastIndex matchCount matches,
    (MAX_MATCHES + 2 - matchCount <= Z.of_nat fuel)%Z ->
    0 < fuel ->
    exec_loop re content timeout startTime now fuel round lastIndex
              matchCount matches <> None.
Proof.
  induction fuel as [|fuel IH]; intros round lastIndex mc ms Hf Hpos.
  - lia.
  - cbn [exec_loop].
    destruct (exec re content lastIndex) as [[m| |msg] li]; try discriminate.
    destruct (timeout <? now round - startTime)%Z; [discriminate|].
    destruct (Z.ltb_spec MAX_MATCHES mc); [discriminate|].
    apply IH; lia.
Qed.

Lemma safeRegexExec_total (re : RegExp) (content : string)
      (timeout startTime : Z) (now : nat -> Z) :
  exists outcome,
    safeRegexExec re content timeout startTime now = Some outcome.
Proof.
  destruct (safeRegexExec re content timeout startTime now) as [o|] eqn:E.
  - now exists o.
  - exfalso. revert E. pose proof rounds_value as R.
    apply exec_loop_total; unfold MAX_MATCHES in *; lia.
Qed.

Section EveryCharacter.

(** A content of [n] copies of a character that is no line terminator,
    searched with [/./g] under a clock that never passes the timeout. *)
Variable c : ascii.
Hypothesis c_plain : is_line_terminator c = false.
Variables (timeout startTime : Z) (now : nat -> Z).
Hypothesis in_time : forall r, (now r - startTime <= timeout)%Z.

Lemma drop_repeat (n k : nat) :
  k <= n -> drop k (JsString.repeat c n) = JsString.repeat c (n - k).
Proof.
  revert k. induction n as [|n IH]; intros [|k] H; simpl; try reflexivity; try lia.
  apply IH. lia.
Qed.

Lemma exec_dot_g (n k : nat) :
  k <= n ->
  exec dot_g (JsString.repeat c n) k
  = if Nat.ltb k n then (Found (mkMatch k (String c "")), S k)
    else (NotFound, 0).
Proof.
  intros H. unfold exec. cbn [global dot_g search].
  rewrite JsStringFacts.length_repeat.
  destruct (Nat.ltb_spec n k); [lia|].
  rewrite drop_repeat by assumption.
  destruct (Nat.ltb_spec k n).
  - destruct (n - k) as [|j] eqn:E; [lia|]. cbn [JsString.repeat search_dot_aux].
    rewrite c_plain. cbn [index matched String.length]. f_equal. lia.
  - replace (n - k) with 0 by lia. reflexivity.
Qed.

Lemma hits_length (k j : nat) : List.length (hits c k j) = j.
Proof. unfold hits. now rewrite length_map, length_seq. Qed.

(** Up to one match beyond the ceiling, every match is returned. *)
Lemma loop_returns (n : nat) :
  (Z.of_nat n <= MAX_MATCHES + 1)%Z ->
  forall j k fuel matches,
    k + j = n -> j < fuel ->
    exec_loop dot_g (JsString.repeat c n) timeout startTime now fuel
              k k (Z.of_nat k) matches
    = Some (Normal (matches ++ hits c k j)).
Proof.
  intros Hn. induction j as [|j IH]; intros k [|fuel] ms Hk Hf; try lia;
    cbn [exec_loop]; rewrite exec_dot_g by lia.
  - destruct (Nat.ltb_spec k n); [lia|]. cbn [hits seq map].
    now rewrite app_nil_r.
  - destruct (Nat.ltb_spec k n); [|lia].
    destruct (Z.ltb_spec timeout (now k - startTime)); [specialize (in_time k); lia|].
    destruct (Z.ltb_spec MAX_MATCHES (Z.of_nat k)); [lia|].
    cbn [index]. destruct (Nat.eqb_spec k (S k)); [lia|].
    replace (Z.of_nat k + 1)%Z with (Z.of_nat (S k)) by lia.
    rewrite IH by lia. cbn [hits seq map]. now rewrite <- app_assoc.
Qed.

(** From two matches beyond the ceiling on, the loop throws. *)
Lemma loop_throws (n : nat) :
  (MAX_MATCHES + 1 < Z.of_nat n)%Z ->
  forall j k fuel matches,
    (Z.of_nat k + Z.of_nat j = MAX_MATCHES + 1)%Z -> j < fuel ->
    exec_loop dot_g (JsString.repeat c n) timeout startTime now fuel
              k k (Z.of_nat k) matches
    = Some (Throw TooManyMatchesError).
Proof.
  intros Hn. induction j as [|j IH]; intros k [|fuel] ms Hk Hf; try lia;
    cbn [exec_loop]; rewrite exec_dot_g by lia;
    (destruct (Nat.ltb_spec k n); [|lia]);
    (destruct (Z.ltb_spec timeout (now k - startTime));
     [specialize (in_time k); lia|]).
  - destruct (Z.ltb_spec MAX_MATCHES (Z.of_nat k)); [reflexivity|lia].
  - destruct (Z.ltb_spec MAX_MATCHES (Z.of_nat k)); [lia|].
    cbn [index]. destruct (Nat.eqb_spec k (S k)); [lia|].
    replace (Z.of_nat k + 1)%Z with (Z.of_nat (S k)) by lia.
    apply IH; lia.
Qed.

(** The exact threshold of [safeRegexExec] on such a content. *)
Lemma every_character_threshold (n : nat) :
  safeRegexExec dot_g (JsString.repeat c n) timeout startTime now
  = if (Z.of_nat n <=? MAX_MATCHES + 1)%Z then Some (Normal (hits c 0 n))
    else Some (Throw TooManyMatchesError).
Proof.
  unfold safeRegexExec. pose proof rounds_value as R.
  destruct (Z.leb_spec (Z.of_nat n) (MAX_MATCHES + 1)).
  - change 0%Z with (Z.of_nat 0).
    rewrite (@loop_returns n H n 0 rounds []); [reflexivity|lia|lia].
  - change 0%Z with (Z.of_nat 0).
    apply (@loop_throws n H (Z.to_nat (MAX_MATCHES + 1)) 0 rounds []);
      unfold MAX_MATCHES in *; lia.
Qed.

End EveryCharacter.

(** C5 (the code departs from the claim). The claim: the executor fails
    with the too-many-matches error whenever the matches exceed the
    ceiling of 10,000, in particular for an expression matching every
    character of a content longer than the ceiling. The code tests
    [matchCount++ > MAX_MATCHES], the count before the match at hand: on
    10,001 characters [/./g] returns all 10,001 matches, and the error
    comes from 10,002 characters on. *)
Theorem ceiling_is_off_by_one :
  (exists matches,
      safeRegexExec dot_g (JsString.repeat "a" (Z.to_nat 10001)) 2000 0
                    (fun _ => 0%Z) = Some (Normal matches)
      /\ Z.of_nat (List.length matches) = 10001%Z)
  /\ safeRegexExec dot_g (JsString.repeat "a" (Z.to_nat 10002)) 2000 0
                   (fun _ => 0%Z) = Some (Throw TooManyMatchesError).
Proof.
  assert (P : is_line_terminator "a" = false) by reflexivity.
  assert (T : forall r : nat, (0 - 0 <= 2000)%Z) by (intros; lia).
  split.
  - exists (hits "a" 0 (Z.to_nat 10001)). split.
    + rewrite (@every_character_threshold "a"%char P 2000 0 (fun _ => 0%Z) T).
      destruct (Z.leb_spec (Z.of_nat (Z.to_nat 10001)) (MAX_MATCHES + 1));
        [reflexivity | unfold MAX_MATCHES in *; lia].
    + rewrite hits_length. lia.
  - rewrite (@every_character_threshold "a"%char P 2000 0 (fun _ => 0%Z) T).
    destruct (Z.leb_spec (Z.of_nat (Z.to_nat 10002)) (MAX_MATCHES + 1));
      [unfold MAX_MATCHES in *; lia | reflexivity].
Qed.

End C5.

(** ** The expressions of the validator are decided correctly *)

Module RxFacts.

Import Rx JsStringFacts.

Local Open Scope string_scope.











Lemma star_self (L : string -> Prop) (s : string) : L s -> star L s.
Proof.
  intros H. rewrite <- (append_nil_r s). constructor; [assumption | constructor].
Qed.

End RxFacts.

(** ** C7: the static validator *)

Module C7.

Import Rx RxFacts JsStringFacts Validator ValidatorSpec.

Local Open Scope string_scope.



Lemma quantifier_iff (d : ascii) :
  (d = "+"%char \/ d = "*"%char) <-> quantifier d.
Proof. reflexivity. Qed.







(** The shapes are those of the two expressions and no wider: a run of
    two different wildcards, or a group with text after its inner
    quantifier, passes as safe. *)
Lemma shapes_are_narrow :
  safe (validatePattern "key=.*.+") = true
  /\ safe (validatePattern "(a+b)*") = true
  /\ safe (validatePattern "(a+)*") = false
  /\ safe (validatePattern "key=.*.*") = false.
Proof. vm_compute. repeat split. Qed.


End C7.

(** ** The table of character frequencies *)

Module FrequencyFacts.

Import Entropy.

Lemma lookup_bump (c d : ascii) (fr : list (ascii * nat)) :
  lookup d (bump c fr) = lookup d fr + (if Ascii.eqb d c then 1 else 0).
Proof.
  induction fr as [|[x n] fr IH]; simpl.
  - destruct (Ascii.eqb d c); lia.
  - destruct (Ascii.eqb_spec c x) as [->|Hcx]; simpl.
    + destruct (Ascii.eqb d x); lia.
    + destruct (Ascii.eqb_spec d x) as [->|Hdx].
      * destruct (Ascii.eqb_spec x c); [congruence | lia].
      * apply IH.
Qed.

Lemma keys_bump (c : ascii) (fr : list (ascii * nat)) :
  keys (bump c fr) = if in_dec ascii_dec c (keys fr) then keys fr
                     else keys fr ++ [c].
Proof.
  induction fr as [|[x n] fr IH]; simpl; [reflexivity|].
  destruct (Ascii.eqb_spec c x) as [->|Hcx]; simpl.
  - destruct (ascii_dec x x); [reflexivity | congruence].
  - rewrite IH. destruct (ascii_dec x c); [congruence|].
    now destruct (in_dec ascii_dec c (keys fr)).
Qed.

Lemma total_bump (c : ascii) (fr : list (ascii * nat)) :
  total (bump c fr) = S (total fr).
Proof.
  unfold total. induction fr as [|[x n] fr IH]; simpl; [reflexivity|].
  destruct (Ascii.eqb c x); simpl; [lia | rewrite IH; lia].
Qed.

Lemma NoDup_bump (c : ascii) (fr : list (ascii * nat)) :
  NoDup (keys fr) -> NoDup (keys (bump c fr)).
Proof.
  intros H. rewrite keys_bump.
  destruct (in_dec ascii_dec c (keys fr)) as [|N]; [assumption|].
  apply NoDup_app; [assumption | | ].
  - constructor; [intros [] | constructor].
  - intros x Hx [E|[]]. subst x. contradiction.
Qed.

Lemma lookup_count_chars (d : ascii) (s : string) :
  forall fr, lookup d (count_chars s fr) = lookup d fr + occurrences d s.
Proof.
  induction s as [|c s IH]; intros fr; simpl; [lia|].
  rewrite IH, lookup_bump. lia.
Qed.

Lemma total_count_chars (s : string) :
  forall fr, total (count_chars s fr) = total fr + String.length s.
Proof.
  induction s as [|c s IH]; intros fr; simpl; [lia|].
  rewrite IH, total_bump. lia.
Qed.

Lemma NoDup_count_chars (s : string) :
  forall fr, NoDup (keys fr) -> NoDup (keys (count_chars s fr)).
Proof.
  induction s as [|c s IH]; intros fr H; simpl; [assumption|].
  now apply IH, NoDup_bump.
Qed.

Lemma keys_count_chars (d : ascii) (s : string) :
  forall fr, In d (keys (count_chars s fr))
             <-> In d (keys fr) \/ In d (list_ascii_of_string s).
Proof.
  induction s as [|c s IH]; intros fr; simpl; [tauto|].
  rewrite IH, keys_bump.
  destruct (in_dec ascii_dec c (keys fr)) as [Hc|Hc].
  - intuition (subst; auto).
  - rewrite in_app_iff. simpl. intuition (subst; auto).
Qed.

(** With unique keys, an entry of the table is what [lookup] finds. *)
Lemma lookup_entry (c : ascii) (n : nat) (fr : list (ascii * nat)) :
  NoDup (keys fr) -> In (c, n) fr -> lookup c fr = n.
Proof.
  induction fr as [|[x m] fr IH]; simpl; [intros _ []|]. intros H [E|E].
  - injection E as -> ->. now rewrite Ascii.eqb_refl.
  - inversion H as [|? ? Hx Hfr]; subst.
    destruct (Ascii.eqb_spec c x) as [->|_]; [|now apply IH].
    exfalso. apply Hx. change x with (fst (x, n)). now apply in_map.
Qed.

Lemma occurrences_positive (c : ascii) (s : string) :
  In c (list_ascii_of_string s) -> 0 < occurrences c s.
Proof.
  induction s as [|d s IH]; simpl; [tauto|].
  intros [->|H]; [rewrite Ascii.eqb_refl; lia | specialize (IH H); lia].
Qed.


(** The table of a string: one entry for each character that occurs,
    with the number of its occurrences. *)
Lemma table_entry (s : string) (c : ascii) (n : nat) :
  In (c, n) (count_chars s []) ->
  n = occurrences c s /\ In c (list_ascii_of_string s).
Proof.
  intros H. split.
  - rewrite <- (lookup_entry c n _ (NoDup_count_chars s [] (NoDup_nil _)) H).
    now rewrite lookup_count_chars.
  - assert (K : In c (keys (count_chars s []))).
    { change c with (fst (c, n)). now apply in_map. }
    apply keys_count_chars in K as [[]|K]. exact K.
Qed.

Lemma table_length (s : string) :
  List.length (count_chars s []) = List.length (distinct s).
Proof.
  rewrite <- (length_map fst (count_chars s [])). fold (keys (count_chars s [])).
  assert (N1 := NoDup_count_chars s [] (NoDup_nil _)).
  assert (N2 : NoDup (distinct s)) by apply NoDup_nodup.
  apply Nat.le_antisymm; apply NoDup_incl_length; try assumption; intros x Hx.
  - apply nodup_In. apply keys_count_chars in Hx as [[]|Hx]. exact Hx.
  - apply keys_count_chars. right. now apply nodup_In in Hx.
Qed.

End FrequencyFacts.

(** ** C9 and C6: the entropy and its classes *)

Module EntropyFacts.

Import Entropy FrequencyFacts.

Local Open Scope R_scope.

Lemma ln2_pos : 0 < ln 2.
Proof. pose proof ln_lt_2. lra. Qed.



Lemma log2_inv (x : R) : 0 < x -> log2 (/ x) = - log2 x.
Proof. intros H. unfold log2. rewrite ln_Rinv by assumption. lra. Qed.

(** The loop over the table subtracts the summands. *)
Lemma fold_summands (length : R) (fr : list (ascii * nat)) :
  forall entropy,
    fold_left
      (fun entropy (kv : ascii * nat) =>
         let probability := INR (snd kv) / length in
         entropy - probability * log2 probability) fr entropy
    = entropy - sum_summands length fr.
Proof.
  induction fr as [|kv fr IH]; intros e; simpl; [lra|].
  rewrite IH. unfold summand. lra.
Qed.

Lemma calculateEntropy_sum (s : string) :
  s <> EmptyString ->
  calculateEntropy s
  = - sum_summands (INR (String.length s)) (count_chars s []).
Proof.
  intros H. unfold calculateEntropy.
  destruct s as [|c s]; [congruence|]. cbn [String.length Nat.eqb].
  rewrite fold_summands. lra.
Qed.






(** A table whose counts are all [k]. *)
Lemma sum_summands_const (length : R) (k : nat) (fr : list (ascii * nat)) :
  (forall kv, In kv fr -> snd kv = k) ->
  sum_summands length fr = INR (List.length fr) * summand length k.
Proof.
  induction fr as [|kv fr IH]; intros H.
  - simpl. lra.
  - cbn [sum_summands fold_right]. fold (sum_summands length fr).
    rewrite IH by (intros; apply H; now right).
    rewrite (H kv (or_introl eq_refl)).
    change (List.length (kv :: fr)) with (S (List.length fr)).
    rewrite S_INR. lra.
Qed.

Lemma total_const (k : nat) (fr : list (ascii * nat)) :
  (forall kv, In kv fr -> snd kv = k) ->
  total fr = (List.length fr * k)%nat.
Proof.
  unfold total. induction fr as [|kv fr IH]; intros H; simpl; [reflexivity|].
  rewrite IH by (intros; apply H; now right).
  now rewrite (H kv (or_introl eq_refl)).
Qed.

Lemma calculateEntropy_uniform (s : string) (k : nat) :
  s <> EmptyString -> uniform s k ->
  calculateEntropy s = log2 (INR (List.length (distinct s))).
Proof.
  intros Hs Hu. rewrite calculateEntropy_sum by assumption.
  assert (Hall : forall kv, In kv (count_chars s []) -> snd kv = k).
  { intros [c n] H. simpl. apply table_entry in H as [-> H]. now apply Hu. }
  rewrite (sum_summands_const _ k _ Hall).
  pose proof (total_count_chars s []) as Ht.
  rewrite (total_const k _ Hall), table_length in Ht.
  change (total []) with 0%nat in Ht. rewrite Nat.add_0_l in Ht.
  rewrite table_length, <- Ht. set (n := List.length (distinct s)) in *.
  assert (Hlen : (0 < String.length s)%nat) by (destruct s; [congruence | simpl; lia]).
  assert (Hn : 0 < INR n) by (apply lt_0_INR; nia).
  assert (Hk : 0 < INR k) by (apply lt_0_INR; nia).
  unfold summand. rewrite mult_INR.
  replace (INR k / (INR n * INR k)) with (/ INR n) by (field; lra).
  rewrite log2_inv by assumption. field. lra.
Qed.

End EntropyFacts.

Module C9.

Import Entropy EntropyFacts.

Local Open Scope R_scope.



End C9.

Module C6.

Import Entropy EntropyFacts Scenario.

Local Open Scope R_scope.

Lemma Rgeb_true (x y : R) : x >= y -> Rgeb x y = true.
Proof. intros H. unfold Rgeb. destruct (Rge_dec x y); [reflexivity | contradiction]. Qed.

Lemma Rgeb_false (x y : R) : x < y -> Rgeb x y = false.
Proof. intros H. unfold Rgeb. destruct (Rge_dec x y); [lra | reflexivity]. Qed.

(** C6. The classifier is a total function of the string; it reports
    the entropy it computed, and the class follows the thresholds:
    high and secret from 5.0, medium and secret from 4.0, medium and not
    secret from 3.5, low and not secret below. *)
Theorem analyzeEntropy_classes (s : string) :
  entropy (analyzeEntropy s) = calculateEntropy s
  /\ (calculateEntropy s >= 5.0 ->
      level (analyzeEntropy s) = "high"%string
      /\ isSecret (analyzeEntropy s) = true)
  /\ (4.0 <= calculateEntropy s < 5.0 ->
      level (analyzeEntropy s) = "medium"%string
      /\ isSecret (analyzeEntropy s) = true)
  /\ (3.5 <= calculateEntropy s < 4.0 ->
      level (analyzeEntropy s) = "medium"%string
      /\ isSecret (analyzeEntropy s) = false)
  /\ (calculateEntropy s < 3.5 ->
      level (analyzeEntropy s) = "low"%string
      /\ isSecret (analyzeEntropy s) = false).
Proof.
  unfold analyzeEntropy. set (e := calculateEntropy s).
  split; [destruct (Rgeb e 5.0), (Rgeb e 4.0), (Rgeb e 3.5); reflexivity|].
  repeat split.
  all: try (rewrite Rgeb_true by lra; reflexivity).
  all: try (rewrite (Rgeb_false e 5.0) by lra; rewrite Rgeb_true by lra; reflexivity).
  all: try (rewrite (Rgeb_false e 5.0), (Rgeb_false e 4.0) by lra;
            rewrite Rgeb_true by lra; reflexivity).
  all: rewrite (Rgeb_false e 5.0), (Rgeb_false e 4.0), (Rgeb_false e 3.5) by lra;
    reflexivity.
Qed.

Lemma entropy_thirty_two : calculateEntropy thirty_two = 5.
Proof.
  rewrite (calculateEntropy_uniform thirty_two 1%nat); [|discriminate|].
  - replace (INR (List.length (distinct thirty_two))) with (2 ^ 5).
    + unfold log2. rewrite ln_pow by lra. pose proof ln2_pos.
      simpl INR. field. lra.
    + replace (List.length (distinct thirty_two)) with 32%nat by reflexivity.
      simpl. lra.
  - intros c H. simpl in H.
    repeat (destruct H as [<-|H]; [reflexivity|]). destruct H.
Qed.

Lemma analyzeEntropy_classes_witness :
  level (analyzeEntropy thirty_two) = "high"%string
  /\ isSecret (analyzeEntropy thirty_two) = true.
Proof.
  destruct (analyzeEntropy_classes thirty_two) as (_ & H & _).
  apply H. rewrite entropy_thirty_two. lra.
Defined.

End C6.

(** ** C4: the guards of the analyzer *)

Module C4.

Import Analyzer Scenario.

Section Guards.

Variable findMatches : string -> PatternInfo -> list SafeRegex.Match.
Variable fs : FileSystem.
Variable patterns : Patterns.
Variable filePath : string.
Variable options : AnalysisOptions.

(** Whatever the [try] block throws, the handler answers with the
    empty list. *)
Lemma analyzeContent_catches (e : FsError) :
  analyzeContent_try findMatches fs patterns filePath options = Throw e ->
  analyzeContent findMatches fs patterns filePath options = [].
Proof. unfold analyzeContent. intros ->. now destruct e. Qed.

Lemma isBinaryFile_null (bytesRead : list ascii) :
  open_read fs filePath 512 = Normal bytesRead -> In zero bytesRead ->
  isBinaryFile fs filePath = true.
Proof.
  intros E H. unfold isBinaryFile. rewrite E. apply existsb_exists.
  exists zero. split; [assumption | apply Ascii.eqb_refl].
Qed.

(** C4. On a file that does not exist, may not be read, exceeds
    10 MiB, has more than 100,000 lines or shows a null byte among the
    bytes read from its first 512, [analyzeContent] returns the empty
    list; it returns a list on every input, an error of the [try]
    block never leaves it. *)
Theorem analyzeContent_guards :
  guarded fs filePath ->
  analyzeContent findMatches fs patterns filePath options = [].
Proof.
  intros G. unfold analyzeContent, analyzeContent_try.
  destruct (stat_size fs filePath) as [size|e] eqn:S; [|now destruct e].
  destruct (Z.ltb_spec MAX_FILE_SIZE size) as [L|L]; [reflexivity|].
  destruct (isBinaryFile fs filePath) eqn:B; [reflexivity|].
  destruct (readFile fs filePath) as [content|e] eqn:R; [|now destruct e].
  destruct (Z.ltb_spec MAX_LINES
              (Z.of_nat (List.length (JsString.split JsString.newline content))))
    as [M|M]; [reflexivity|].
  exfalso. destruct G as [H|H|H|size' H H'|content' H H'|bytes H H'];
    try congruence.
  - rewrite S in H. injection H as <-. lia.
  - rewrite R in H. injection H as <-. lia.
  - rewrite (isBinaryFile_null bytes H H') in B. discriminate.
Qed.

End Guards.

Lemma many_lines_count :
  (MAX_LINES
   < Z.of_nat (List.length (JsString.split JsString.newline many_lines)))%Z.
Proof. vm_compute. reflexivity. Qed.

Lemma analyzeContent_guards_witness :
  analyzeContent findMatches (fs_of (fun _ => Missing)) catalog "a.js"
                 low_options = []
  /\ analyzeContent findMatches (fs_of (fun _ => Unreadable 12)) catalog
                    "a.js" low_options = []
  /\ analyzeContent findMatches
       (constant_fs (Normal 10485761%Z) (Normal []) (Normal KEY)) catalog
       "a.js" low_options = []
  /\ analyzeContent findMatches
       (constant_fs (Normal 100000%Z) (Normal []) (Normal many_lines)) catalog
       "a.js" low_options = []
  /\ analyzeContent findMatches
       (fs_of (one_file "a.bin" [String zero KEY])) catalog
       "a.bin" low_options = [].
Proof.
  split; [|split; [|split; [|split]]]; apply analyzeContent_guards.
  - apply file_missing. reflexivity.
  - apply read_denied. reflexivity.
  - apply too_large with (size := 10485761%Z); [reflexivity | reflexivity].
  - apply too_many_lines with (content := many_lines);
      [reflexivity | exact many_lines_count].
  - apply binary with (bytesRead := list_ascii_of_string (String zero KEY));
      [reflexivity | left; reflexivity].
Defined.

End C4.

(** ** Dictionaries *)

Module DictFacts.

Section WithValue.

Variable V : Type.




Lemma get_in (k : string) (v : V) (d : Dict.t V) :
  Dict.get k d = Some v -> In (k, v) d.
Proof.
  induction d as [|[x w] d IH]; simpl; [discriminate|].
  destruct (String.eqb_spec k x) as [->|_].
  - intros [= ->]. now left.
  - intros H. right. now apply IH.
Qed.






End WithValue.

End DictFacts.

(** ** C8: the active set of patterns *)

Module C8.

Import Analyzer DictFacts Scenario.














End C8.

(** ** JSON strings can be read back *)

Module JsonFacts.

Import Json JsStringFacts.

Local Open Scope string_scope.




Lemma prefix_refl_append (a x : string) : prefix a (a ++ x) = true.
Proof.
  induction a as [|c a IH]; simpl; [now destruct x|].
  destruct (ascii_dec c c); [exact IH | congruence].
Qed.








End JsonFacts.

(** ** The baseline filter *)

Module BaselineFacts.

Import Analyzer Baseline.

Section WithDigest.

Variable sha256_hex : string -> string.

Lemma filter_loop (doc : BaselineDoc) (input : list FileResult) :
  forall filtered,
    fold_left
      (fun filtered fileResult =>
         let filteredFileFindings :=
           filter (fun finding =>
                     negb (isBaselined sha256_hex (Some doc) finding
                                       (file fileResult)))
                  (Baseline.findings fileResult) in
         if (0 <? List.length filteredFileFindings)%nat then
           filtered ++ [mkFileResult (file fileResult) filteredFileFindings]
         else filtered)
      input filtered
    = filtered
        ++ map (fun fr => mkFileResult (file fr)
                            (survivors sha256_hex (Some doc) fr))
               (filter (fun fr =>
                          (0 <? List.length
                                  (survivors sha256_hex (Some doc) fr))%nat)
                       input).
Proof.
  induction input as [|fr input IH]; intros acc; cbn [fold_left filter map].
  - now rewrite app_nil_r.
  - rewrite IH.
    change (filter _ (Baseline.findings fr))
      with (survivors sha256_hex (Some doc) fr).
    destruct (0 <? List.length (survivors sha256_hex (Some doc) fr))%nat;
      cbn [map]; [now rewrite <- app_assoc | reflexivity].
Qed.

(** With a baseline loaded, the filter keeps the files that have a
    survivor, each with its survivors. *)
Lemma filterFindings_loaded (doc : BaselineDoc) (input : list FileResult) :
  filterFindings sha256_hex (Some doc) input
  = map (fun fr => mkFileResult (file fr)
                     (survivors sha256_hex (Some doc) fr))
        (filter (fun fr =>
                   (0 <? List.length
                           (survivors sha256_hex (Some doc) fr))%nat)
                input).
Proof. unfold filterFindings. now rewrite filter_loop. Qed.

Lemma survivors_unloaded (fr : FileResult) :
  survivors sha256_hex None fr = Baseline.findings fr.
Proof.
  unfold survivors. simpl. induction (Baseline.findings fr) as [|f l IH];
    simpl; [reflexivity | now rewrite IH].
Qed.


End WithDigest.

End BaselineFacts.

(** ** C10: files without a surviving finding leave the result *)

Module C10.

Import Analyzer Baseline BaselineFacts Detector Scenario.

(** C10. When every file entry of the input has a finding, every file
    entry of the output of [filterFindings] has one too: a file whose
    findings are all in the baseline is dropped, not kept with an empty
    list; with no baseline loaded the input is returned as it is; and
    [filesWithIssues] is the number of files with a surviving finding. *)
Theorem filterFindings_keeps_no_empty_entry
        (sha256_hex : string -> string) (baseline : option BaselineDoc)
        (input : list FileResult) (timestamp : string) (total : nat) :
  Forall (fun fr => Baseline.findings fr <> []) input ->
  Forall (fun fr => Baseline.findings fr <> [])
         (filterFindings sha256_hex baseline input)
  /\ (baseline = None -> filterFindings sha256_hex baseline input = input)
  /\ filesWithIssues
       (formatResults timestamp total
          (filterFindings sha256_hex baseline input))
     = List.length
         (filter (fun fr =>
                    (0 <? List.length (survivors sha256_hex baseline fr))%nat)
                 input).
Proof.
  intros H. destruct baseline as [doc|].
  - rewrite filterFindings_loaded. split; [|split; [discriminate|]].
    + apply Forall_forall. intros fr' Hin.
      apply in_map_iff in Hin as (fr & <- & Hfr).
      apply filter_In in Hfr as [_ Hfr]. simpl.
      destruct (survivors sha256_hex (Some doc) fr); [discriminate Hfr | discriminate].
    + simpl. now rewrite length_map.
  - simpl. split; [exact H | split; [reflexivity|]]. f_equal.
    induction H as [|fr input Hfr _ IH]; simpl; [reflexivity|].
    rewrite survivors_unloaded. rewrite <- IH at 1.
    destruct (Baseline.findings fr); [congruence | reflexivity].
Qed.

Lemma filterFindings_keeps_no_empty_entry_witness :
  filterFindings plain_digest (Some old_baseline)
    [mkFileResult "a.js" [old_finding]; mkFileResult "b.js" [new_finding]]
  = [mkFileResult "b.js" [new_finding]]
  /\ Forall (fun fr => Baseline.findings fr <> [])
       (filterFindings plain_digest (Some old_baseline)
          [mkFileResult "a.js" [old_finding]; mkFileResult "b.js" [new_finding]]).
Proof.
  split; [reflexivity|].
  apply (filterFindings_keeps_no_empty_entry plain_digest (Some old_baseline)
           [mkFileResult "a.js" [old_finding]; mkFileResult "b.js" [new_finding]]
           "" 2).
  repeat constructor; discriminate.
Defined.

End C10.

(** ** C3: the digest decides *)

Module C3.

Import Analyzer Baseline BaselineFacts JsonFacts Scenario.

Local Open Scope string_scope.


Section WithDigest.

Variable sha256_hex : string -> string.



End WithDigest.



End C3.

(** ** C2: the two scan strategies *)

Module C2.

Import Analyzer Baseline Detector Scenario.

Section WithWorld.

Variable findMatches : string -> PatternInfo -> list SafeRegex.Match.
Variable sha256_hex : string -> string.
Variable fs : FileSystem.
Variable builtin : option Patterns.
Variable customFile : string -> option CustomPatterns.
Variable baselineFile : string -> option BaselineDoc.
Variable timestamp : string.

(** The sequential loop gathers what the filter over the answers of
    the workers keeps, when both analyze with the same catalog. *)
Lemma sequential_loop (catalog : Patterns) (options : AnalysisOptions)
      (files : list string) :
  forall results,
    fold_left
      (fun results file =>
         let findings := analyzeContent findMatches fs catalog file options in
         if (0 <? List.length findings)%nat
         then results ++ [mkFileResult file findings]
         else results)
      files results
    = results
        ++ map (fun r => mkFileResult (w_filePath r) (w_findings r))
             (filter
                (fun r =>
                   match w_error r with
                   | Some _ => false
                   | None => (0 <? List.length (w_findings r))%nat
                   end)
                (map (fun task =>
                        mkWorkerResult (fst task)
                          (analyzeContent findMatches fs catalog (fst task)
                             (snd task)) None)
                     (map (fun file => (file, options)) files))).
Proof.
  induction files as [|file files IH]; intros results;
    cbn [fold_left map filter].
  - now rewrite app_nil_r.
  - rewrite IH. cbn [w_error w_findings fst snd].
    destruct (0 <? List.length
                     (analyzeContent findMatches fs catalog file options))%nat;
      cbn [map w_filePath w_findings]; [now rewrite <- app_assoc | reflexivity].
Qed.

(** When the path of the custom patterns changes nothing in the
    catalog, above all when there is no such path, the two strategies
    give the same result. *)
Lemma strategies_agree (options : Options) (files : list string) :
  new_ContentAnalyzer builtin customFile (customPatternsPath options)
  = new_ContentAnalyzer builtin customFile None ->
  scanSingleThreaded findMatches sha256_hex fs builtin customFile
                     baselineFile timestamp options files
  = scanParallel findMatches sha256_hex fs builtin customFile
                 baselineFile timestamp options files.
Proof.
  intros E. unfold scanSingleThreaded, scanParallel, worker.
  rewrite E, sequential_loop. reflexivity.
Qed.

End WithWorld.

(** C2 (the code departs from the claim). The claim: for every list of
    files and every set of options the two strategies give the same
    counts and the same findings. The code: the sequential strategy
    analyzes with the catalog of [new ContentAnalyzer(customPatternsPath)],
    a worker with that of [new ContentAnalyzer()]. With a custom document
    that disables the one pattern, the sequential scan of a file with two
    keys finds nothing and the parallel scan reports the file with two
    critical findings. *)
Theorem workers_ignore_custom_patterns :
  let sequential :=
    scanSingleThreaded findMatches plain_digest
      (fs_of (one_file "a.js" plain_lines)) (Some catalog) custom_file
      no_baseline stamp custom_options ["a.js"] in
  let parallel :=
    scanParallel findMatches plain_digest
      (fs_of (one_file "a.js" plain_lines)) (Some catalog) custom_file
      no_baseline stamp custom_options ["a.js"] in
  filesWithIssues sequential = 0
  /\ filesWithIssues parallel = 1
  /\ Dict.get "critical" (summary sequential) = Some 0%Z
  /\ Dict.get "critical" (summary parallel) = Some 2%Z
  /\ map (fun fr => (file fr, map f_line (Baseline.findings fr)))
         (Detector.findings sequential) = []
  /\ map (fun fr => (file fr, map f_line (Baseline.findings fr)))
         (Detector.findings parallel) = [("a.js", [2; 3])].
Proof. lazy. repeat split. Qed.

End C2.

(** * Further properties *)

(** ** The inline-ignore parser on blocks *)

Module IgnoreBlocksFacts.

Import InlineIgnore IgnoreBlocks NumSetFacts.

(** The loop over two lists in a row. *)
Lemma block_only_app (l1 l2 : list string) :
  forall i b ig,
    block_only i (l1 ++ l2) b ig
    = block_only (i + List.length l1) l2 (block_after b l1) (block_only i l1 b ig).
Proof.
  induction l1 as [|line l1 IH]; intros i b ig; cbn [app List.length].
  - now rewrite Nat.add_0_r.
  - cbn [block_only block_after]. unfold next_block.
    replace (i + S (List.length l1)) with (S i + List.length l1) by lia.
    destruct (JsString.includes line DISABLE); [apply IH|].
    destruct (JsString.includes line ENABLE); [apply IH|].
    destruct b; apply IH.
Qed.

(** Outside a block, lines without the disable sentinel add nothing. *)
Lemma quiet_lines (l : list string) :
  Forall (fun line => JsString.includes line DISABLE = false) l ->
  forall i ig,
    block_only i l false ig = ig /\ block_after false l = false.
Proof.
  induction 1 as [|line l H _ IH]; intros i ig; [split; reflexivity|].
  cbn [block_only block_after]. unfold next_block. rewrite H.
  destruct (JsString.includes line ENABLE); apply IH.
Qed.

(** Inside a block, lines with neither sentinel are all added. *)
Lemma block_lines (l : list string) :
  Forall (fun line => JsString.includes line DISABLE = false
                      /\ JsString.includes line ENABLE = false) l ->
  forall i ig,
    block_after true l = true
    /\ forall n, NumSet.has (block_only i l true ig) n = true
                 <-> NumSet.has ig n = true \/ i < n <= i + List.length l.
Proof.
  induction 1 as [|line l [HD HE] _ IH]; intros i ig.
  - split; [reflexivity|]. intros n. cbn. intuition lia.
  - cbn [block_only block_after List.length]. unfold next_block.
    rewrite HD, HE. destruct (IH (S i) (NumSet.add (i + 1) ig)) as [B M].
    split; [exact B|]. intros n. rewrite M, has_add, orb_true_iff, Nat.eqb_eq.
    intuition lia.
Qed.

(** No line number outside the file is ever ignored. *)
Lemma block_only_range (rest : list string) :
  forall i b ig n,
    NumSet.has (block_only i rest b ig) n = true ->
    NumSet.has ig n = true \/ i < n <= i + List.length rest.
Proof.
  induction rest as [|line rest IH]; intros i b ig n H; cbn [block_only] in H;
    [now left|].
  cbn [List.length].
  destruct (JsString.includes line DISABLE).
  - apply IH in H as [H|H]; [|right; lia].
    rewrite has_add, orb_true_iff, Nat.eqb_eq in H. intuition lia.
  - destruct (JsString.includes line ENABLE).
    + apply IH in H as [H|H]; [now left | right; lia].
    + apply IH in H as [H|H]; [|right; lia].
      destruct b; [|now left].
      rewrite has_add, orb_true_iff, Nat.eqb_eq in H. intuition lia.
Qed.

End IgnoreBlocksFacts.

Module InlineIgnoreProps.

Import InlineIgnore IgnoreBlocks IgnoreBlocksFacts.

(** X1. Every ignored line number is the number of a line of the file:
    between 1 and [lines.length]. *)
Theorem ignored_lines_in_file (lines : list string) (n : nat) :
  NumSet.has (parseInlineIgnoreComments lines) n = true ->
  1 <= n <= List.length lines.
Proof.
  unfold parseInlineIgnoreComments.
  rewrite InlineIgnoreFacts.parse_from_block_only. intros H.
  apply block_only_range in H as [H|H]; [discriminate | lia].
Qed.

Lemma ignored_lines_in_file_witness : 1 <= 3 <= 6.
Proof.
  apply (ignored_lines_in_file block_example 3). vm_compute. reflexivity.
Defined.

(** X2. A disable line, then lines with neither sentinel, then an enable
    line: with no disable sentinel before or after, the ignored lines are
    the disable line and the lines of the block, not the enable line and
    nothing else; for a block of no line, one line or many. *)
Theorem disable_enable_block (pre body post : list string) (d e : string) :
  Forall (fun line => JsString.includes line DISABLE = false) pre ->
  JsString.includes d DISABLE = true ->
  Forall (fun line => JsString.includes line DISABLE = false
                      /\ JsString.includes line ENABLE = false) body ->
  JsString.includes e DISABLE = false ->
  JsString.includes e ENABLE = true ->
  Forall (fun line => JsString.includes line DISABLE = false) post ->
  forall n,
    NumSet.has (parseInlineIgnoreComments (pre ++ d :: body ++ e :: post)) n
    = true
    <-> List.length pre < n <= List.length pre + 1 + List.length body.
Proof.
  intros Hpre Hd Hbody HeD HeE Hpost n.
  unfold parseInlineIgnoreComments.
  rewrite InlineIgnoreFacts.parse_from_block_only.
  rewrite block_only_app.
  destruct (quiet_lines pre Hpre 0 NumSet.empty) as [-> ->].
  cbn [block_only Nat.add]. rewrite Hd.
  rewrite block_only_app.
  destruct (block_lines body Hbody (S (List.length pre))
              (NumSet.add (List.length pre + 1) NumSet.empty)) as [-> M].
  cbn [block_only]. rewrite HeD, HeE.
  destruct (quiet_lines post Hpost (S (S (List.length pre) + List.length body))
              (block_only (S (List.length pre)) body true
                 (NumSet.add (List.length pre + 1) NumSet.empty))) as [-> _].
  rewrite M, NumSetFacts.has_add, orb_true_iff, Nat.eqb_eq.
  cbn [NumSet.has NumSet.empty existsb]. intuition (try discriminate; lia).
Qed.

Lemma disable_enable_block_witness :
  forall n,
    NumSet.has (parseInlineIgnoreComments block_example) n = true
    <-> 1 < n <= 1 + 1 + 2.
Proof.
  apply (disable_enable_block ["const a = 1;"] ["const b = 2;"; "const c = 3;"]
           ["const d = 4;"] "/* hardcoded-detector:disable */"
           "/* hardcoded-detector:enable */");
    repeat constructor.
Defined.

(** X3. A file in which no line holds the text of the disable sentinel
    has no ignored line, whatever else its comments say. *)
Theorem no_sentinel_no_ignored_line (lines : list string) :
  Forall (fun line => JsString.includes line DISABLE = false) lines ->
  parseInlineIgnoreComments lines = [].
Proof.
  intros H. unfold parseInlineIgnoreComments.
  rewrite InlineIgnoreFacts.parse_from_block_only.
  now destruct (quiet_lines lines H 0 NumSet.empty) as [-> _].
Qed.

Lemma no_sentinel_no_ignored_line_witness :
  parseInlineIgnoreComments
    ["const a = 1;"; "/* hardcoded-detector:enable */"; "const b = 2;"] = [].
Proof. apply no_sentinel_no_ignored_line. repeat constructor. Defined.

End InlineIgnoreProps.

(** ** The loop of [safeRegexExec] for any engine *)

Module SafeRegexFacts.

Import SafeRegex SafeRegexMore.

Section Loop.

Variable re : RegExp.
Variable content : string.
Variables (timeout startTime : Z) (now : nat -> Z).

Lemma loop_bounded :
  forall fuel round lastIndex matchCount matches result,
    exec_loop re content timeout startTime now fuel round lastIndex
              matchCount matches = Some (Normal result) ->
    Z.of_nat (List.length matches) = matchCount ->
    (matchCount <= MAX_MATCHES + 1)%Z ->
    (Z.of_nat (List.length result) <= MAX_MATCHES + 1)%Z.
Proof.
  induction fuel as [|fuel IH]; intros round li mc ms res H L B;
    cbn [exec_loop] in H; [discriminate|].
  destruct (exec re content li) as [[m| |msg] li1]; try discriminate.
  - destruct (timeout <? now round - startTime)%Z; [discriminate|].
    destruct (Z.ltb_spec MAX_MATCHES mc); [discriminate|].
    apply IH in H; [exact H | rewrite length_app; cbn; lia | lia].
  - injection H as <-. lia.
Qed.

(** Without the [g] flag every call of [exec] finds the same match. *)
Lemma loop_without_g (m : Match) :
  global re = false -> search re content 0 = Found m ->
  forall fuel round lastIndex matchCount matches result,
    exec_loop re content timeout startTime now fuel round lastIndex
              matchCount matches = Some result ->
    result = Throw (TimeoutError timeout) \/ result = Throw TooManyMatchesError.
Proof.
  intros G F. induction fuel as [|fuel IH]; intros round li mc ms res H;
    cbn [exec_loop] in H; [discriminate|].
  unfold exec in H. rewrite G, F in H.
  destruct (timeout <? now round - startTime)%Z; [injection H as <-; now left|].
  destruct (MAX_MATCHES <? mc)%Z; [injection H as <-; now right|].
  now apply IH in H.
Qed.

Hypothesis engine : well_behaved re content.
Hypothesis with_g : global re = true.

Lemma exec_found (lastIndex lastIndex1 : nat) (m : Match) :
  exec re content lastIndex = (Found m, lastIndex1) ->
  lastIndex <= index m
  /\ index m + String.length (matched m) <= String.length content
  /\ lastIndex1 = index m + String.length (matched m).
Proof.
  unfold exec. rewrite with_g.
  destruct (Nat.ltb_spec (String.length content) lastIndex); [discriminate|].
  destruct (search re content lastIndex) as [m'| |msg] eqn:S; try discriminate.
  intros E0. injection E0 as Em El. subst m' lastIndex1.
  destruct (engine lastIndex m H S). auto.
Qed.

Lemma sorted_snoc (l : list Match) (m : Match) :
  StronglySorted (fun a b => index a < index b) l ->
  Forall (fun a => index a < index m) l ->
  StronglySorted (fun a b => index a < index b) (l ++ [m]).
Proof.
  induction 1 as [|a l Hl IH Ha]; intros F; cbn [app].
  - repeat constructor.
  - inversion F as [|? ? Fa Fl]; subst. constructor; [now apply IH|].
    apply Forall_app. split; [exact Ha | now repeat constructor].
Qed.

Lemma loop_progress :
  forall fuel round lastIndex matchCount matches result,
    exec_loop re content timeout startTime now fuel round lastIndex
              matchCount matches = Some (Normal result) ->
    StronglySorted (fun a b => index a < index b) matches ->
    Forall (fun a => index a < lastIndex
                     /\ index a + String.length (matched a)
                        <= String.length content) matches ->
    StronglySorted (fun a b => index a < index b) result
    /\ Forall (fun a => index a + String.length (matched a)
                        <= String.length content) result.
Proof.
  induction fuel as [|fuel IH]; intros round li mc ms res H S F;
    cbn [exec_loop] in H; [discriminate|].
  destruct (exec re content li) as [[m| |msg] li1] eqn:E; try discriminate.
  - destruct (timeout <? now round - startTime)%Z; [discriminate|].
    destruct (MAX_MATCHES <? mc)%Z; [discriminate|].
    apply exec_found in E as (E1 & E2 & ->).
    apply IH in H; [exact H | |].
    + apply sorted_snoc; [exact S|].
      eapply Forall_impl; [|exact F]. cbn. intros a [Ha _]. lia.
    + apply Forall_app. split.
      * eapply Forall_impl; [|exact F]. cbn. intros a [Ha Hb].
        split; [|exact Hb].
        destruct (Nat.eqb_spec (index m) (index m + String.length (matched m)));
          lia.
      * repeat constructor; [|exact E2].
        destruct (Nat.eqb_spec (index m) (index m + String.length (matched m)));
          lia.
  - injection H as <-. split; [exact S|].
    eapply Forall_impl; [|exact F]. cbn. intros a [_ Ha]. exact Ha.
Qed.

Lemma loop_below_ceiling :
  (Z.of_nat (String.length content) <= MAX_MATCHES)%Z ->
  forall fuel round lastIndex matchCount matches,
    (matchCount <= Z.of_nat lastIndex)%Z ->
    exec_loop re content timeout startTime now fuel round lastIndex
              matchCount matches <> Some (Throw TooManyMatchesError).
Proof.
  intros Short. induction fuel as [|fuel IH]; intros round li mc ms B;
    cbn [exec_loop]; [discriminate|].
  destruct (exec re content li) as [[m| |msg] li1] eqn:E; try discriminate.
  - destruct (timeout <? now round - startTime)%Z; [discriminate|].
    apply exec_found in E as (E1 & E2 & ->).
    destruct (Z.ltb_spec MAX_MATCHES mc); [lia|].
    apply IH.
    destruct (Nat.eqb_spec (index m) (index m + String.length (matched m)));
      lia.
  - unfold rethrow.
    destruct (JsString.includes msg "timeout"
              || JsString.includes msg "Too many matches")%bool; discriminate.
Qed.

Lemma loop_completes :
  never_raises re content -> in_time timeout startTime now ->
  (Z.of_nat (String.length content) <= MAX_MATCHES)%Z ->
  forall fuel round lastIndex matchCount matches result,
    (matchCount <= Z.of_nat lastIndex)%Z ->
    exec_loop re content timeout startTime now fuel round lastIndex
              matchCount matches = Some result ->
    exists found, result = Normal found.
Proof.
  intros NR IT Short.
  induction fuel as [|fuel IH]; intros round li mc ms res B H;
    cbn [exec_loop] in H; [discriminate|].
  destruct (exec re content li) as [[m| |msg] li1] eqn:E.
  - destruct (Z.ltb_spec timeout (now round - startTime));
      [specialize (IT round); lia|].
    apply exec_found in E as (E1 & E2 & ->).
    destruct (Z.ltb_spec MAX_MATCHES mc); [lia|].
    apply IH in H; [exact H|].
    destruct (Nat.eqb_spec (index m) (index m + String.length (matched m)));
      lia.
  - injection H as <-. now exists ms.
  - exfalso. unfold exec in E. rewrite with_g in E.
    destruct (String.length content <? li)%nat; [discriminate|].
    destruct (search re content li) as [m'| |msg'] eqn:S; try discriminate.
    now apply NR in S.
Qed.

End Loop.

(** The literal engine behaves. *)
Lemma prefix_length (lit : string) :
  forall s, prefix lit s = true -> String.length lit <= String.length s.
Proof.
  induction lit as [|c lit IH]; intros [|d s] H; cbn in *; try lia;
    try discriminate.
  destruct (ascii_dec c d); [|discriminate]. specialize (IH s H). lia.
Qed.

Lemma search_literal_unfold (lit s : string) (i : nat) :
  search_literal_aux lit s i
  = if prefix lit s then Found (mkMatch i lit)
    else match s with
         | EmptyString => NotFound
         | String _ rest => search_literal_aux lit rest (S i)
         end.
Proof. destruct s; reflexivity. Qed.

Lemma search_literal_found (lit : string) (s : string) :
  forall i m,
    search_literal_aux lit s i = Found m ->
    i <= index m /\ matched m = lit
    /\ index m + String.length lit <= i + String.length s.
Proof.
  induction s as [|c s IH]; intros i m H; rewrite search_literal_unfold in H.
  - destruct (prefix lit "") eqn:P; [|discriminate].
    injection H as <-. apply prefix_length in P. cbn in *.
    repeat split; [lia | lia].
  - destruct (prefix lit (String c s)) eqn:P.
    + injection H as <-. apply prefix_length in P. cbn in *.
      repeat split; [lia | lia].
    + apply IH in H as (H1 & H2 & H3). cbn [String.length].
      repeat split; [lia | exact H2 | lia].
Qed.

Lemma length_drop (n : nat) (s : string) :
  String.length (drop n s) = String.length s - n.
Proof.
  revert s. induction n as [|n IH]; intros [|c s]; cbn; try lia. apply IH.
Qed.

Lemma literal_well_behaved (g : bool) (lit content : string) :
  well_behaved (literal g lit) content.
Proof.
  intros from m L H. cbn [literal search] in H.
  apply search_literal_found in H as (H1 & -> & H3).
  rewrite length_drop in H3. lia.
Qed.

Lemma literal_never_raises (g : bool) (lit content : string) :
  never_raises (literal g lit) content.
Proof.
  intros from msg. cbn [literal search].
  generalize (drop from content) as s. intros s. revert from.
  induction s as [|c s IH]; intros from; rewrite search_literal_unfold.
  - destruct (prefix lit ""); discriminate.
  - destruct (prefix lit (String c s)); [discriminate | apply IH].
Qed.

Lemma without_g_a_match_is_an_error_aux (re : RegExp) (content : string)
      (timeout startTime : Z) (now : nat -> Z) (m : Match) :
  global re = false -> search re content 0 = Found m ->
  safeRegexExec re content timeout startTime now
  = Some (Throw (TimeoutError timeout))
  \/ safeRegexExec re content timeout startTime now
     = Some (Throw TooManyMatchesError).
Proof.
  intros G F.
  destruct (C5.safeRegexExec_total re content timeout startTime now) as [r E].
  rewrite E. unfold safeRegexExec in E.
  destruct (loop_without_g re content timeout startTime now m G F _ _ _ _ _ _ E)
    as [-> | ->]; auto.
Qed.

End SafeRegexFacts.

Module SafeRegexProps.

Import SafeRegex SafeRegexMore SafeRegexFacts.

(** X4. Whatever the engine and the clock, a list that [safeRegexExec]
    returns holds at most 10,001 matches. *)
Theorem returned_matches_bounded (re : RegExp) (content : string)
        (timeout startTime : Z) (now : nat -> Z) (matches : list Match) :
  safeRegexExec re content timeout startTime now = Some (Normal matches) ->
  (Z.of_nat (List.length matches) <= MAX_MATCHES + 1)%Z.
Proof.
  intros H. unfold safeRegexExec in H.
  apply (loop_bounded re content timeout startTime now _ _ _ _ _ _ H);
    [reflexivity | unfold MAX_MATCHES; lia].
Qed.

Lemma returned_matches_bounded_witness :
  (Z.of_nat (List.length [mkMatch 10 "test"; mkMatch 24 "test"])
   <= MAX_MATCHES + 1)%Z.
Proof.
  apply (returned_matches_bounded (literal true "test")
           "This is a test. Another test here." 2000 0 (fun _ => 0%Z)).
  vm_compute. reflexivity.
Defined.

(** X5. An expression without the [g] flag that matches the content
    never gives a list: [exec] finds the same match again and again, and
    the loop ends by the timeout or by the ceiling; so [findMatches] of
    the analyzer answers with no match for it. *)
Theorem without_g_a_match_is_an_error (re : RegExp) (content : string)
        (timeout startTime : Z) (now : nat -> Z) (m : Match) :
  global re = false -> search re content 0 = Found m ->
  (safeRegexExec re content timeout startTime now
   = Some (Throw (TimeoutError timeout))
   \/ safeRegexExec re content timeout startTime now
      = Some (Throw TooManyMatchesError))
  /\ forall compile patternInfo,
      compile (Analyzer.pattern patternInfo)
              (Analyzer.or_else (Analyzer.flags patternInfo) "gi") = Some re ->
      Analyzer.findMatches_with compile startTime now content patternInfo = [].
Proof.
  intros G F. split; [now apply without_g_a_match_is_an_error_aux with m|].
  intros compile p C. unfold Analyzer.findMatches_with. rewrite C.
  destruct (without_g_a_match_is_an_error_aux re content 2000 startTime now m
              G F) as [-> | ->]; reflexivity.
Qed.

Lemma without_g_a_match_is_an_error_witness :
  safeRegexExec (literal false "test") "a test" 2000 0 (fun _ => 0%Z)
  = Some (Throw (TimeoutError 2000))
  \/ safeRegexExec (literal false "test") "a test" 2000 0 (fun _ => 0%Z)
     = Some (Throw TooManyMatchesError).
Proof.
  apply (without_g_a_match_is_an_error (literal false "test") "a test" 2000 0
           (fun _ => 0%Z) (mkMatch 2 "test")); reflexivity.
Defined.

(** X6. With the [g] flag and an engine that behaves, the matches
    returned lie inside the content at strictly increasing positions: the
    loop moves forward after every match, also after an empty one. *)
Theorem matches_move_forward (re : RegExp) (content : string)
        (timeout startTime : Z) (now : nat -> Z) (matches : list Match) :
  well_behaved re content -> global re = true ->
  safeRegexExec re content timeout startTime now = Some (Normal matches) ->
  StronglySorted (fun a b => index a < index b) matches
  /\ Forall (fun a => index a + String.length (matched a)
                      <= String.length content) matches.
Proof.
  intros W G H. unfold safeRegexExec in H.
  apply (loop_progress re content timeout startTime now W G _ _ _ _ _ _ H);
    constructor.
Qed.

Lemma matches_move_forward_witness :
  StronglySorted (fun a b => index a < index b)
                 [mkMatch 0 ""; mkMatch 1 ""; mkMatch 2 ""; mkMatch 3 ""]
  /\ Forall (fun a => index a + String.length (matched a) <= 3)
            [mkMatch 0 ""; mkMatch 1 ""; mkMatch 2 ""; mkMatch 3 ""].
Proof.
  apply (matches_move_forward (literal true "") "abc" 2000 0 (fun _ => 0%Z)).
  - apply literal_well_behaved.
  - reflexivity.
  - vm_compute. reflexivity.
Defined.

(** X7. With the [g] flag and an engine that behaves, a content of at
    most 10,000 characters never raises the too-many-matches error. *)
Theorem short_content_stays_below_ceiling (re : RegExp) (content : string)
        (timeout startTime : Z) (now : nat -> Z) :
  well_behaved re content -> global re = true ->
  (Z.of_nat (String.length content) <= MAX_MATCHES)%Z ->
  safeRegexExec re content timeout startTime now
  <> Some (Throw TooManyMatchesError).
Proof.
  intros W G S. unfold safeRegexExec.
  apply (loop_below_ceiling re content timeout startTime now W G S). lia.
Qed.

Lemma short_content_stays_below_ceiling_witness :
  safeRegexExec (literal true "") "abc" 2000 0 (fun _ => 0%Z)
  <> Some (Throw TooManyMatchesError).
Proof.
  apply short_content_stays_below_ceiling.
  - apply literal_well_behaved.
  - reflexivity.
  - vm_compute. discriminate.
Defined.

(** X8. [testPatternSafety] throws for a source that does not compile
    (the constructor is called outside the [try]); it answers [false] for
    a compiled expression without the [g] flag that matches the test
    string, safe or not; and it answers [true] for an expression with the
    [g] flag whose engine behaves and raises nothing, under a clock within
    the timeout. *)
Theorem testPatternSafety_answers
        (compile : string -> string -> option RegExp)
        (timeout startTime : Z) (now : nat -> Z) :
  (forall source,
      compile source "g" = None ->
      testPatternSafety compile (Source source) timeout startTime now
      = Some (Throw "SyntaxError"))
  /\ (forall re m,
         global re = false -> search re testString 0 = Found m ->
         testPatternSafety compile (Compiled re) timeout startTime now
         = Some (Normal false))
  /\ (forall re,
         global re = true -> well_behaved re testString ->
         never_raises re testString -> in_time timeout startTime now ->
         testPatternSafety compile (Compiled re) timeout startTime now
         = Some (Normal true)).
Proof.
  split; [|split].
  - intros source H. unfold testPatternSafety. now rewrite H.
  - intros re m G F. unfold testPatternSafety.
    destruct (without_g_a_match_is_an_error_aux re testString timeout startTime
                now m G F) as [-> | ->]; reflexivity.
  - intros re G W NR IT. unfold testPatternSafety.
    destruct (C5.safeRegexExec_total re testString timeout startTime now)
      as [r E].
    rewrite E. unfold safeRegexExec in E.
    assert (S : (Z.of_nat (String.length testString) <= MAX_MATCHES)%Z).
    { unfold testString. rewrite JsStringFacts.length_repeat.
      unfold MAX_MATCHES. lia. }
    destruct (loop_completes re testString timeout startTime now W G NR IT S
                rounds 0 0 0%Z [] r (Z.le_refl (Z.of_nat 0)) E) as [found ->].
    reflexivity.
Qed.

Lemma testPatternSafety_answers_witness :
  testPatternSafety (fun _ _ => None) (Compiled (literal false "a")) 1000 0
                    (fun _ => 0%Z) = Some (Normal false)
  /\ testPatternSafety (fun _ _ => None) (Compiled (literal true "a")) 1000 0
                       (fun _ => 0%Z) = Some (Normal true).
Proof.
  destruct (testPatternSafety_answers (fun _ _ => None) 1000 0 (fun _ => 0%Z))
    as (_ & F & T).
  split.
  - apply (F (literal false "a") (mkMatch 0 "a")); reflexivity.
  - apply T.
    + reflexivity.
    + apply literal_well_behaved.
    + apply literal_never_raises.
    + intros r. lia.
Defined.

End SafeRegexProps.

(** ** The entropy is at most the logarithm of the alphabet *)

Module EntropyBound.

Import Entropy EntropyFacts FrequencyFacts.

Local Open Scope R_scope.

Lemma ln_le_sub1 (x : R) : 0 < x -> ln x <= x - 1.
Proof.
  intros H. pose proof (exp_ineq1_le (ln x)) as E.
  rewrite exp_ln in E by assumption. lra.
Qed.

(** One summand against the uniform distribution over [N] characters. *)
Lemma summand_bound (L N : R) (k : nat) :
  0 < L -> 0 < N -> (0 < k)%nat ->
  - summand L k
  <= log2 N * (INR k / L) + (/ N - INR k / L) / ln 2.
Proof.
  intros HL HN Hk. unfold summand, log2.
  assert (K : 0 < INR k) by (apply lt_0_INR; lia).
  set (p := INR k / L).
  assert (P : 0 < p) by (unfold p; now apply Rdiv_lt_0_compat).
  pose proof ln2_pos as L2.
  assert (B : ln (/ (N * p)) <= / (N * p) - 1).
  { apply ln_le_sub1. apply Rinv_0_lt_compat. nra. }
  rewrite ln_Rinv in B by nra. rewrite ln_mult in B by assumption.
  assert (Q : - (p * ln p) <= ln N * p + (/ N - p)).
  { assert (M : p * (- (ln N + ln p)) <= p * (/ (N * p) - 1)) by nra.
    replace (p * (/ (N * p) - 1)) with (/ N - p) in M by (field; lra).
    lra. }
  assert (D : - (p * ln p) / ln 2 <= (ln N * p + (/ N - p)) / ln 2).
  { apply Rmult_le_compat_r; [|exact Q].
    apply Rlt_le, Rinv_0_lt_compat, L2. }
  replace (- (p * (ln p / ln 2))) with (- (p * ln p) / ln 2) by (field; lra).
  replace (ln N / ln 2 * p + (/ N - p) / ln 2)
    with ((ln N * p + (/ N - p)) / ln 2) by (field; lra).
  exact D.
Qed.

Lemma sum_bound (L N : R) (fr : list (ascii * nat)) :
  0 < L -> 0 < N ->
  (forall kv, In kv fr -> (0 < snd kv)%nat) ->
  - sum_summands L fr
  <= log2 N * (INR (total fr) / L)
     + (INR (List.length fr) / N - INR (total fr) / L) / ln 2.
Proof.
  intros HL HN. induction fr as [|kv fr IH]; intros H.
  - cbn. unfold total. cbn. lra.
  - cbn [sum_summands fold_right]. fold (sum_summands L fr).
    assert (IH' := IH (fun x Hx => H x (or_intror Hx))).
    pose proof (summand_bound L N (snd kv) HL HN (H kv (or_introl eq_refl))) as S.
    unfold total in *. cbn [map List.length].
    change (list_sum (snd kv :: map snd fr))
      with (snd kv + list_sum (map snd fr))%nat.
    rewrite plus_INR, S_INR. pose proof ln2_pos.
    replace (log2 N * ((INR (snd kv) + INR (list_sum (map snd fr))) / L)
             + ((INR (List.length fr) + 1) / N
                - (INR (snd kv) + INR (list_sum (map snd fr))) / L) / ln 2)
      with ((log2 N * (INR (snd kv) / L) + (/ N - INR (snd kv) / L) / ln 2)
            + (log2 N * (INR (list_sum (map snd fr)) / L)
               + (INR (List.length fr) / N
                  - INR (list_sum (map snd fr)) / L) / ln 2))
      by (field; lra).
    lra.
Qed.

Lemma entropy_le_log2_distinct (s : string) :
  s <> EmptyString ->
  calculateEntropy s <= log2 (INR (List.length (distinct s))).
Proof.
  intros Hs. rewrite calculateEntropy_sum by assumption.
  assert (Hlen : (0 < String.length s)%nat)
    by (destruct s; [congruence | simpl; lia]).
  assert (HL : 0 < INR (String.length s)) by (apply lt_0_INR; lia).
  assert (Hn : (0 < List.length (distinct s))%nat).
  { rewrite <- table_length. destruct s as [|c s]; [congruence|].
    destruct (count_chars (String c s) []) eqn:E; [|simpl; lia].
    pose proof (total_count_chars (String c s) []) as T. rewrite E in T.
    cbn in T. lia. }
  assert (HN : 0 < INR (List.length (distinct s))) by (apply lt_0_INR; lia).
  pose proof (sum_bound (INR (String.length s))
                (INR (List.length (distinct s))) (count_chars s []) HL HN) as B.
  rewrite (total_count_chars s []), table_length in B.
  change (total []) with 0%nat in B. rewrite Nat.add_0_l in B.
  replace (INR (String.length s) / INR (String.length s)) with 1 in B
    by (field; lra).
  replace (INR (List.length (distinct s)) / INR (List.length (distinct s)))
    with 1 in B by (field; lra).
  assert (Z0 : (1 - 1) / ln 2 = 0) by (unfold Rdiv; ring).
  rewrite Z0 in B.
  assert (P : forall kv, In kv (count_chars s []) -> (0 < snd kv)%nat).
  { intros [c n] H. simpl. apply table_entry in H as [-> H].
    now apply occurrences_positive. }
  specialize (B P). lra.
Qed.

Lemma length_nodup (l : list ascii) :
  (List.length (nodup ascii_dec l) <= List.length l)%nat.
Proof.
  induction l as [|c l IH]; cbn; [lia|].
  destruct (in_dec ascii_dec c l); cbn; lia.
Qed.

Lemma length_list_ascii (s : string) :
  List.length (list_ascii_of_string s) = String.length s.
Proof. induction s; cbn; congruence. Qed.

Lemma distinct_le_length (s : string) :
  (List.length (distinct s) <= String.length s)%nat.
Proof. unfold distinct. rewrite <- length_list_ascii. apply length_nodup. Qed.

(** An entropy of [b] bits needs [2 ^ b] distinct characters. *)
Lemma entropy_needs_alphabet (s : string) (b : nat) :
  INR b <= calculateEntropy s -> (0 < b)%nat ->
  (2 ^ b <= List.length (distinct s))%nat.
Proof.
  intros H Hb.
  assert (Hs : s <> EmptyString).
  { intros ->. unfold calculateEntropy in H. cbn in H.
    assert (0 < INR b) by (apply lt_0_INR; lia). lra. }
  pose proof (entropy_le_log2_distinct s Hs) as B.
  destruct (Nat.le_gt_cases (2 ^ b) (List.length (distinct s))) as [|Lt];
    [assumption | exfalso].
  set (n := List.length (distinct s)) in *.
  assert (Hn : (0 < n)%nat).
  { destruct n; [|lia]. unfold log2 in B. cbn in B.
    assert (0 < INR b) by (apply lt_0_INR; lia).
    pose proof ln2_pos. unfold ln in B.
    destruct (Rlt_dec 0 0) as [A|A]; [lra|].
    unfold Rdiv in B. rewrite Rmult_0_l in B. lra. }
  assert (L : ln (INR n) < ln (INR (2 ^ b))).
  { apply ln_increasing; [apply lt_0_INR; lia | apply lt_INR; lia]. }
  rewrite pow_INR, ln_pow in L by (simpl; lra).
  simpl INR in L. replace (1 + 1) with 2 in L by lra.
  unfold log2 in B. pose proof ln2_pos as P.
  assert (INR b * ln 2 <= ln (INR n)).
  { apply Rmult_le_reg_r with (/ ln 2); [now apply Rinv_0_lt_compat|].
    rewrite Rmult_assoc, Rinv_r by lra. unfold Rdiv in B. lra. }
  lra.
Qed.

Lemma secrets_need_sixteen_aux (s : string) :
  isSecret (analyzeEntropy s) = true ->
  (16 <= List.length (distinct s) <= String.length s)%nat.
Proof.
  pose proof (distinct_le_length s) as D.
  unfold analyzeEntropy. set (e := calculateEntropy s). unfold Rgeb.
  destruct (Rge_dec e 5.0) as [H5|H5]; cbn [isSecret].
  - intros _. split; [|exact D].
    apply (entropy_needs_alphabet s 4); [fold e; simpl; lra | lia].
  - destruct (Rge_dec e 4.0) as [H4|H4]; cbn [isSecret].
    + intros _. split; [|exact D].
      apply (entropy_needs_alphabet s 4); [fold e; simpl; lra | lia].
    + destruct (Rge_dec e 3.5); cbn [isSecret]; discriminate.
Qed.

End EntropyBound.

Module EntropyProps.

Import Entropy EntropyMore EntropyFacts EntropyBound Scenario.

Local Open Scope R_scope.

(** X9. The entropy of a non-empty string is at most the base-2
    logarithm of the number of its distinct characters. *)
Theorem entropy_at_most_log2_of_alphabet (s : string) :
  s <> EmptyString ->
  calculateEntropy s <= log2 (INR (List.length (distinct s))).
Proof. apply entropy_le_log2_distinct. Qed.

Lemma entropy_at_most_log2_of_alphabet_witness :
  calculateEntropy "banana" <= log2 3.
Proof.
  replace 3 with (INR (List.length (distinct "banana")))
    by (replace (List.length (distinct "banana")) with 3%nat by reflexivity;
        simpl; lra).
  apply entropy_at_most_log2_of_alphabet. discriminate.
Defined.

(** X10. A string that the classifier calls a secret has at least 16
    distinct characters, so at least 16 characters; one whose level is
    high has at least 32. *)
Theorem secrets_need_sixteen_characters (s : string) :
  (isSecret (analyzeEntropy s) = true ->
   (16 <= List.length (distinct s) <= String.length s)%nat)
  /\ (level (analyzeEntropy s) = "high"%string ->
      (32 <= List.length (distinct s) <= String.length s)%nat).
Proof.
  pose proof (distinct_le_length s) as D.
  unfold analyzeEntropy. set (e := calculateEntropy s).
  unfold Rgeb.
  destruct (Rge_dec e 5.0) as [H5|H5]; cbn [isSecret level].
  - split; intros _; split; try exact D.
    + apply (entropy_needs_alphabet s 4); [fold e; simpl; lra | lia].
    + apply (entropy_needs_alphabet s 5); [fold e; simpl; lra | lia].
  - destruct (Rge_dec e 4.0) as [H4|H4]; cbn [isSecret level].
    + split; [|discriminate]. intros _. split; [|exact D].
      apply (entropy_needs_alphabet s 4); [fold e; simpl; lra | lia].
    + destruct (Rge_dec e 3.5); cbn [isSecret level]; split; discriminate.
Qed.

Lemma secrets_need_sixteen_characters_witness :
  (16 <= List.length (distinct thirty_two) <= String.length thirty_two)%nat.
Proof.
  apply (secrets_need_sixteen_characters thirty_two).
  unfold analyzeEntropy. rewrite C6.entropy_thirty_two.
  rewrite C6.Rgeb_true by lra. reflexivity.
Defined.

(** X11. [entropyFilter] with its defaults lets every value of fewer
    than 8 characters through, rejects every value of 8 to 15 characters,
    and lets a longer value through only if it has at least 16 distinct
    characters. *)
Theorem entropyFilter_defaults (value : string) :
  ((String.length value < 8)%nat -> entropyFilter value None None = true)
  /\ ((8 <= String.length value < 16)%nat ->
      entropyFilter value None None = false)
  /\ ((8 <= String.length value)%nat ->
      entropyFilter value None None = true ->
      (16 <= List.length (distinct value))%nat).
Proof.
  unfold entropyFilter.
  assert (K : Rgeb (calculateEntropy value) 4.0 = true ->
              (16 <= List.length (distinct value))%nat).
  { unfold Rgeb. destruct (Rge_dec (calculateEntropy value) 4.0); [|discriminate].
    intros _. apply (entropy_needs_alphabet value 4); [simpl; lra | lia]. }
  pose proof (distinct_le_length value) as D.
  split; [|split].
  - intros H. destruct (Nat.ltb_spec (String.length value) 8); [reflexivity | lia].
  - intros H. destruct (Nat.ltb_spec (String.length value) 8); [lia|].
    destruct (Rgeb (calculateEntropy value) 4.0) eqn:E; [|reflexivity].
    specialize (K eq_refl). lia.
  - intros H. destruct (Nat.ltb_spec (String.length value) 8); [lia|]. exact K.
Qed.

Lemma entropyFilter_defaults_witness :
  entropyFilter "abc" None None = true
  /\ entropyFilter "password123" None None = false.
Proof.
  split.
  - apply (entropyFilter_defaults "abc"). cbn. lia.
  - apply (entropyFilter_defaults "password123"). cbn. lia.
Defined.

End EntropyProps.

(** ** Where the findings of a file come from *)

Module AnalyzerFacts.

Import Analyzer AnalyzerMore.

Lemma length_split_aux (sep : ascii) (s : string) :
  forall cur,
    List.length (JsString.split_aux sep cur s) = S (count_char sep s).
Proof.
  induction s as [|c s IH]; intros cur; cbn; [reflexivity|].
  destruct (Ascii.eqb c sep); cbn; now rewrite IH.
Qed.

Lemma length_split (sep : ascii) (s : string) :
  List.length (JsString.split sep s) = S (count_char sep s).
Proof. apply length_split_aux. Qed.

Lemma count_char_take (sep : ascii) (s : string) :
  forall n, count_char sep (JsString.take n s) <= count_char sep s.
Proof.
  unfold JsString.take.
  induction s as [|c s IH]; intros [|n]; cbn; try lia.
  specialize (IH n). lia.
Qed.

(** The line of a match is a line of the file, wherever the engine says
    the match is. *)
Lemma line_of_range (content : string) (m : SafeRegex.Match) :
  1 <= line_of content m
  <= List.length (JsString.split JsString.newline content).
Proof.
  unfold line_of. rewrite !length_split.
  pose proof (count_char_take JsString.newline content (SafeRegex.index m)).
  lia.
Qed.

Section WithEngine.

Variable findMatches : string -> PatternInfo -> list SafeRegex.Match.
Variable content : string.
Variable options : AnalysisOptions.

Lemma visit_match_origin (id : string) (p : PatternInfo)
      (findings : list Finding) (m : SafeRegex.Match) (f : Finding) :
  In f (visit_match content (JsString.split JsString.newline content) (InlineIgnore.parseInlineIgnoreComments
        (JsString.split JsString.newline content)) options id p findings m) ->
  In f findings
  \/ (f_id f = id /\ f_match f = SafeRegex.matched m
      /\ f_line f = line_of content m
      /\ NumSet.has (InlineIgnore.parseInlineIgnoreComments
        (JsString.split JsString.newline content)) (f_line f) = false
      /\ f_severity f = or_else (severity p) "medium"
      /\ f_category f = or_else (category p) "unknown"
      /\ ((opt_useEntropyFilter options && useEntropyFilter p)%bool = true ->
          Entropy.isSecret (Entropy.analyzeEntropy (f_match f)) = true)).
Proof.
  unfold visit_match. fold (line_of content m).
  destruct (NumSet.has (InlineIgnore.parseInlineIgnoreComments
        (JsString.split JsString.newline content)) (line_of content m)) eqn:I; [now left|].
  destruct (opt_useEntropyFilter options && useEntropyFilter p)%bool eqn:E.
  - destruct (Entropy.isSecret (Entropy.analyzeEntropy (SafeRegex.matched m)))
      eqn:S; cbn [negb]; [|now left].
    intros H. apply in_app_or in H as [H|[<-|[]]]; [now left | right].
    cbn. repeat split; auto.
  - intros H. apply in_app_or in H as [H|[<-|[]]]; [now left | right].
    cbn. repeat split; auto. discriminate.
Qed.

Lemma visit_matches_origin (id : string) (p : PatternInfo)
      (matches : list SafeRegex.Match) :
  forall findings f,
    In f (fold_left (visit_match content (JsString.split JsString.newline content) (InlineIgnore.parseInlineIgnoreComments
        (JsString.split JsString.newline content)) options id p)
                    matches findings) ->
    In f findings
    \/ exists m,
        In m matches
        /\ f_id f = id /\ f_match f = SafeRegex.matched m
        /\ f_line f = line_of content m
        /\ NumSet.has (InlineIgnore.parseInlineIgnoreComments
        (JsString.split JsString.newline content)) (f_line f) = false
        /\ f_severity f = or_else (severity p) "medium"
        /\ f_category f = or_else (category p) "unknown"
        /\ ((opt_useEntropyFilter options && useEntropyFilter p)%bool = true ->
            Entropy.isSecret (Entropy.analyzeEntropy (f_match f)) = true).
Proof.
  induction matches as [|m matches IH]; intros findings f H; cbn in H;
    [now left|].
  apply IH in H as [H|(m' & Hm & H)].
  - apply visit_match_origin in H as [H|H]; [now left | right].
    exists m. split; [now left | exact H].
  - right. exists m'. split; [now right | exact H].
Qed.

Lemma visit_patterns_origin (patterns all : Patterns) :
  (forall kv, In kv patterns -> In kv all) ->
  forall findings f,
    In f (fold_left (visit_pattern findMatches content (JsString.split JsString.newline content) (InlineIgnore.parseInlineIgnoreComments
        (JsString.split JsString.newline content))
                                   options) patterns findings) ->
    In f findings \/ explained findMatches all options content f.
Proof.
  induction patterns as [|[id p] patterns IH]; intros Sub findings f H;
    cbn [fold_left] in H; [now left|].
  apply IH in H as [H|H]; [|now right|intros kv Hkv; apply Sub; now right].
  unfold visit_pattern in H. cbn [fst snd] in H.
  destruct (shouldSkipPattern id p options) eqn:K; [now left|].
  apply visit_matches_origin in H as [H|(m & Hm & Hid & H1 & H2 & H3 & H4 & H5 & H6)];
    [now left | right].
  exists p, m. rewrite Hid. repeat split; auto.
  apply Sub. now left.
Qed.

End WithEngine.

Lemma analyzeContent_origin
      (findMatches : string -> PatternInfo -> list SafeRegex.Match)
      (fs : FileSystem) (patterns : Patterns) (filePath : string)
      (options : AnalysisOptions) (f : Finding) :
  In f (analyzeContent findMatches fs patterns filePath options) ->
  exists content,
    readFile fs filePath = Normal content
    /\ explained findMatches patterns options content f.
Proof.
  unfold analyzeContent, analyzeContent_try.
  destruct (stat_size fs filePath) as [size|e]; [|destruct e; intros []].
  destruct (MAX_FILE_SIZE <? size)%Z; [intros []|].
  destruct (isBinaryFile fs filePath); [intros []|].
  destruct (readFile fs filePath) as [content|e]; [|destruct e; intros []].
  destruct (MAX_LINES <? _)%Z; [intros []|].
  intros H. exists content. split; [reflexivity|].
  apply (visit_patterns_origin findMatches content options patterns patterns)
    in H as [[]|H]; [exact H | auto].
Qed.

(** The level of the severity written into a finding is the level of
    its pattern. *)
Lemma level_of_written_severity (sev : option string) :
  level_or_2 (Some (or_else sev "medium")) = level_or_2 sev.
Proof.
  destruct sev as [s|]; [|reflexivity]. unfold or_else.
  destruct (String.eqb_spec s ""); [subst; reflexivity | reflexivity].
Qed.

End AnalyzerFacts.

Module AnalyzerProps.

Import Analyzer AnalyzerMore AnalyzerFacts Scenario.

(** X12. Every finding of [analyzeContent] comes from a pattern of the
    catalog that the options do not skip and from a match that
    [findMatches] returned for it in the content read; its line is a line
    of the file, between 1 and [lines.length], and is not in the set of
    ignored lines. *)
Theorem findings_are_explained
        (findMatches : string -> PatternInfo -> list SafeRegex.Match)
        (fs : FileSystem) (patterns : Patterns) (filePath : string)
        (options : AnalysisOptions) (f : Finding) :
  In f (analyzeContent findMatches fs patterns filePath options) ->
  exists content,
    readFile fs filePath = Normal content
    /\ explained findMatches patterns options content f
    /\ 1 <= f_line f
       <= List.length (JsString.split JsString.newline content).
Proof.
  intros H. apply analyzeContent_origin in H as (content & R & E).
  exists content. split; [exact R|]. split; [exact E|].
  destruct E as (p & m & _ & _ & _ & _ & -> & _). apply line_of_range.
Qed.

Lemma plain_findings :
  exists f,
    In f (analyzeContent Scenario.findMatches
            (fs_of (one_file "a.js" plain_lines)) catalog "a.js" low_options)
    /\ f_line f = 2.
Proof.
  assert (E : map f_line
                (analyzeContent Scenario.findMatches
                   (fs_of (one_file "a.js" plain_lines)) catalog "a.js"
                   low_options) = [2; 3]) by (lazy; reflexivity).
  destruct (analyzeContent _ _ _ _ _) as [|f rest]; [discriminate|].
  exists f. split; [now left | now injection E].
Qed.

Lemma findings_are_explained_witness :
  exists f content,
    readFile (fs_of (one_file "a.js" plain_lines)) "a.js" = Normal content
    /\ explained Scenario.findMatches catalog low_options content f
    /\ 1 <= f_line f
       <= List.length (JsString.split JsString.newline content).
Proof.
  destruct plain_findings as (f & H & _). exists f.
  exact (findings_are_explained _ _ _ _ _ _ H).
Defined.

(** X13. The options are respected: no finding carries the id of a
    disabled pattern; none is below the minimum severity, when one is
    given; and a finding whose category is in the excluded list can only
    be one of a pattern without category, reported as unknown. *)
Theorem findings_respect_options
        (findMatches : string -> PatternInfo -> list SafeRegex.Match)
        (fs : FileSystem) (patterns : Patterns) (filePath : string)
        (options : AnalysisOptions) (f : Finding) :
  In f (analyzeContent findMatches fs patterns filePath options) ->
  (forall ids, disabledPatterns options = Some ids -> ~ In (f_id f) ids)
  /\ (truthy (minSeverity options) = true ->
      (level_or_2 (minSeverity options)
       <= level_or_2 (Some (f_severity f)))%Z)
  /\ (forall cats, excludeCategories options = Some cats ->
                   In (f_category f) cats -> f_category f = "unknown").
Proof.
  intros H. apply analyzeContent_origin in H as (content & _ & E).
  destruct E as (p & m & _ & K & _ & _ & _ & _ & S & C & _).
  unfold shouldSkipPattern in K.
  destruct (match disabledPatterns options with
            | Some ids => existsb (String.eqb (f_id f)) ids
            | None => false
            end) eqn:D; [discriminate|].
  destruct (truthy (minSeverity options)
            && (level_or_2 (severity p) <? level_or_2 (minSeverity options))%Z)%bool
    eqn:M; [discriminate|].
  destruct (match excludeCategories options, category p with
            | Some cats, Some c => existsb (String.eqb c) cats
            | _, _ => false
            end) eqn:X; [discriminate|].
  split; [|split].
  - intros ids Hids Hin. rewrite Hids in D.
    assert (existsb (String.eqb (f_id f)) ids = true); [|congruence].
    apply existsb_exists. exists (f_id f). split; [exact Hin | apply String.eqb_refl].
  - intros T. rewrite T in M. cbn [andb] in M.
    rewrite S, level_of_written_severity.
    destruct (Z.ltb_spec (level_or_2 (severity p))
                         (level_or_2 (minSeverity options))); [discriminate | lia].
  - intros cats Hc Hin. rewrite Hc in X. rewrite C in *.
    destruct (category p) as [c|]; [|reflexivity].
    unfold or_else in *. destruct (String.eqb_spec c ""); [reflexivity|].
    assert (existsb (String.eqb c) cats = true); [|congruence].
    apply existsb_exists. exists c. split; [exact Hin | apply String.eqb_refl].
Qed.

Lemma findings_respect_options_witness :
  exists f,
    (forall ids, disabledPatterns low_options = Some ids -> ~ In (f_id f) ids)
    /\ (truthy (minSeverity low_options) = true ->
        (level_or_2 (minSeverity low_options)
         <= level_or_2 (Some (f_severity f)))%Z)
    /\ (forall cats, excludeCategories low_options = Some cats ->
                     In (f_category f) cats -> f_category f = "unknown").
Proof.
  destruct plain_findings as (f & H & _). exists f.
  exact (findings_respect_options _ _ _ _ _ _ H).
Defined.

(** X14. With the entropy filter on, a finding of a pattern marked for
    the filter has a match of at least 16 distinct characters: shorter
    matches of such patterns are never reported. *)
Theorem filtered_findings_are_long
        (findMatches : string -> PatternInfo -> list SafeRegex.Match)
        (fs : FileSystem) (patterns : Patterns) (filePath : string)
        (options : AnalysisOptions) (f : Finding) :
  opt_useEntropyFilter options = true ->
  (forall p, In (f_id f, p) patterns -> useEntropyFilter p = true) ->
  In f (analyzeContent findMatches fs patterns filePath options) ->
  16 <= List.length (Entropy.distinct (f_match f))
  /\ 16 <= String.length (f_match f).
Proof.
  intros O P H. apply analyzeContent_origin in H as (content & _ & E).
  destruct E as (p & m & Hp & _ & _ & _ & _ & _ & _ & _ & S).
  rewrite O, (P p Hp) in S. specialize (S eq_refl).
  destruct (EntropyBound.secrets_need_sixteen_aux (f_match f) S). lia.
Qed.

Lemma thirty_two_is_secret :
  Entropy.isSecret (Entropy.analyzeEntropy thirty_two) = true.
Proof.
  unfold Entropy.analyzeEntropy. rewrite C6.entropy_thirty_two.
  rewrite C6.Rgeb_true by lra. reflexivity.
Qed.

Lemma random_finding :
  exists f,
    In f (analyzeContent Scenario.findMatches
            (fs_of (one_file "a.js" random_lines)) random_catalog "a.js"
            filter_options)
    /\ f_id f = "generic_secret" /\ f_match f = thirty_two.
Proof.
  assert (E : analyzeContent Scenario.findMatches
                (fs_of (one_file "a.js" random_lines)) random_catalog "a.js"
                filter_options
              = visit_match "secret = ABCDEFGHIJKLMNOPQRSTUVWXYZ012345"
                  random_lines [] filter_options "generic_secret"
                  random_pattern [] (SafeRegex.mkMatch 9 thirty_two)).
  { lazy - [visit_match]. reflexivity. }
  rewrite E. unfold visit_match.
  replace (NumSet.has [] _) with false by reflexivity.
  cbn [opt_useEntropyFilter filter_options useEntropyFilter random_pattern andb
       SafeRegex.matched].
  rewrite thirty_two_is_secret. cbn [negb app].
  eexists. split; [left; reflexivity | split; reflexivity].
Qed.

Lemma filtered_findings_are_long_witness :
  exists f,
    16 <= List.length (Entropy.distinct (f_match f))
    /\ 16 <= String.length (f_match f).
Proof.
  destruct random_finding as (f & H & I & _). exists f.
  apply (filtered_findings_are_long Scenario.findMatches
           (fs_of (one_file "a.js" random_lines)) random_catalog "a.js"
           filter_options f); [reflexivity | | exact H].
  intros p [E|[]]. now injection E as _ <-.
Defined.

End AnalyzerProps.

(** ** Context lines, the skip predicate and the getters *)

Module ContextFacts.

Import Analyzer.

Lemma length_mapi_from {A B : Type} (f : A -> nat -> B) (l : list A) :
  forall i, List.length (mapi_from f i l) = List.length l.
Proof. induction l as [|x l IH]; intros i; cbn; [reflexivity | now rewrite IH]. Qed.

Lemma nth_error_mapi_from {A B : Type} (f : A -> nat -> B) (l : list A) :
  forall i j,
    nth_error (mapi_from f i l) j
    = option_map (fun x => f x (i + j)) (nth_error l j).
Proof.
  induction l as [|x l IH]; intros i [|j]; cbn; try reflexivity.
  - now rewrite Nat.add_0_r.
  - rewrite IH. now replace (S i + j) with (i + S j) by lia.
Qed.

Lemma nth_error_slice {A : Type} (start stop : nat) (l : list A) (j : nat) :
  nth_error (slice start stop l) j
  = if Nat.ltb j (stop - start) then nth_error l (start + j) else None.
Proof. unfold slice. now rewrite nth_error_firstn, nth_error_skipn. Qed.

Lemma length_slice {A : Type} (start stop : nat) (l : list A) :
  List.length (slice start stop l)
  = Nat.min (stop - start) (List.length l - start).
Proof. unfold slice. now rewrite length_firstn, length_skipn. Qed.

End ContextFacts.

Module ContextProps.

Import Analyzer AnalyzerMore ContextFacts.

(** X15. For a target line inside the file, [getContext] gives the lines
    from [contextLines] before the target to [contextLines] after it, cut
    at the ends of the file: consecutive line numbers, each with the
    content of its line, at most [2 * contextLines + 1] of them, and
    exactly the entry of the target line is marked. *)
Theorem getContext_window (lines : list string) (centerLine contextLines : nat) :
  centerLine < List.length lines ->
  let context := getContext lines centerLine contextLines in
  let start := centerLine - contextLines in
  List.length context
  = Nat.min (List.length lines - 1) (centerLine + contextLines) - start + 1
  /\ List.length context <= 2 * contextLines + 1
  /\ (forall j entry,
         nth_error context j = Some entry ->
         ctx_lineNumber entry = start + j + 1
         /\ nth_error lines (start + j) = Some (ctx_content entry)
         /\ (isTarget entry = true <-> ctx_lineNumber entry = centerLine + 1))
  /\ exists entry,
      nth_error context (centerLine - start) = Some entry
      /\ isTarget entry = true
      /\ nth_error lines centerLine = Some (ctx_content entry).
Proof.
  intros H context start. unfold context, getContext.
  rewrite Nat.max_0_l. fold start.
  set (stop := Nat.min (List.length lines - 1) (centerLine + contextLines)).
  assert (Hstart : start <= centerLine) by (unfold start; lia).
  assert (Hstop : centerLine <= stop < List.length lines) by (unfold stop; lia).
  rewrite length_mapi_from, length_slice.
  split; [lia|]. split; [unfold start, stop; lia|]. split.
  - intros j entry E. rewrite nth_error_mapi_from, nth_error_slice in E.
    destruct (Nat.ltb_spec j (stop + 1 - start)); [|discriminate].
    destruct (nth_error lines (start + j)) as [line|] eqn:L; [|discriminate].
    cbn in E. injection E as <-. cbn.
    split; [reflexivity|]. split; [reflexivity|].
    rewrite Nat.eqb_eq. lia.
  - rewrite nth_error_mapi_from, nth_error_slice.
    destruct (Nat.ltb_spec (centerLine - start) (stop + 1 - start)); [|lia].
    replace (start + (centerLine - start)) with centerLine by lia.
    destruct (nth_error lines centerLine) as [line|] eqn:L.
    + eexists. split; [reflexivity|]. cbn. split; [|reflexivity].
      apply Nat.eqb_eq. lia.
    + apply nth_error_None in L. lia.
Qed.

Lemma getContext_window_witness :
  List.length (getContext ["a"; "b"; "c"; "d"; "e"; "f"] 4 2) = 4.
Proof.
  destruct (getContext_window ["a"; "b"; "c"; "d"; "e"; "f"] 4 2) as (L & _).
  - cbn. lia.
  - exact L.
Defined.

(** X16. Lowering the minimum severity never hides a pattern: a pattern
    that is kept under a threshold that is given is kept under every
    threshold of the same or a lower level. *)
Theorem lower_threshold_keeps_patterns (patternId : string)
        (patternInfo : PatternInfo) (options : AnalysisOptions)
        (level lower : string) :
  level <> "" ->
  (level_or_2 (Some lower) <= level_or_2 (Some level))%Z ->
  shouldSkipPattern patternId patternInfo (with_minSeverity options level)
  = false ->
  shouldSkipPattern patternId patternInfo (with_minSeverity options lower)
  = false.
Proof.
  intros T L. unfold shouldSkipPattern, with_minSeverity.
  cbn [disabledPatterns minSeverity excludeCategories].
  destruct (match Analyzer.disabledPatterns options with
            | Some ids => existsb (String.eqb patternId) ids
            | None => false
            end); [discriminate|].
  assert (Tl : truthy (Some level) = true).
  { cbn. now destruct (String.eqb_spec level ""). }
  rewrite Tl. cbn [andb].
  destruct (Z.ltb_spec (level_or_2 (severity patternInfo))
                       (level_or_2 (Some level))); [discriminate|].
  destruct (Z.ltb_spec (level_or_2 (severity patternInfo))
                       (level_or_2 (Some lower))); [lia|].
  now rewrite andb_false_r.
Qed.

Lemma lower_threshold_keeps_patterns_witness :
  shouldSkipPattern "access_key" Scenario.key_pattern
                    (with_minSeverity Scenario.low_options "medium") = false.
Proof.
  apply (lower_threshold_keeps_patterns "access_key" Scenario.key_pattern
           Scenario.low_options "critical" "medium");
    [discriminate | cbn; lia | reflexivity].
Defined.

Lemma collect_unique (entries : list (string * PatternInfo)) :
  NoDup (map fst entries) ->
  forall acc,
    (forall k, In k (map fst entries) -> ~ In k (Dict.keys acc)) ->
    fold_left (fun acc kv => Dict.set (fst kv) (snd kv) acc) entries acc
    = (acc ++ entries)%list.
Proof.
  induction entries as [|[k v] entries IH]; intros N acc F; cbn.
  - now rewrite app_nil_r.
  - inversion N as [|? ? Hk Hn]; subst.
    assert (S : Dict.set k v acc = (acc ++ [(k, v)])%list).
    { assert (Hacc : ~ In k (Dict.keys acc)) by (apply F; now left).
      clear - Hacc. induction acc as [|[x w] acc IHa]; cbn; [reflexivity|].
      cbn in Hacc. destruct (String.eqb_spec k x) as [->|_]; [tauto|].
      rewrite IHa; tauto. }
    rewrite S, IH; [now rewrite <- app_assoc | exact Hn |].
    intros x Hx. unfold Dict.keys. rewrite map_app, in_app_iff. cbn.
    intros [Hin|[<-|[]]]; [|contradiction].
    apply (F x); [now right | exact Hin].
Qed.

Lemma NoDup_map_filter (f : string * PatternInfo -> bool)
      (l : list (string * PatternInfo)) :
  NoDup (map fst l) -> NoDup (map fst (filter f l)).
Proof.
  induction l as [|x l IH]; cbn; intros N; [constructor|].
  inversion N as [|? ? Hx Hl]; subst.
  destruct (f x); cbn; [|now apply IH].
  constructor; [|now apply IH].
  intros Hin. apply Hx. apply in_map_iff in Hin as (y & E & Hy).
  apply filter_In in Hy as [Hy _]. apply in_map_iff. now exists y.
Qed.

(** X17. On a catalog with unique ids, [getPatternsByCategory] and
    [getPatternsByService] give exactly the entries of that category or
    service, in the order of the catalog; the empty object if there is
    none. *)
Theorem getters_select (patterns : Patterns) (wanted : option string) :
  Dict.wf patterns ->
  getPatternsByCategory patterns wanted
  = filter (fun kv => same_member (category (snd kv)) wanted) patterns
  /\ getPatternsByService patterns wanted
     = filter (fun kv => same_member (service (snd kv)) wanted) patterns.
Proof.
  intros W. unfold getPatternsByCategory, getPatternsByService, collect,
              Dict.entries.
  split; rewrite collect_unique; try reflexivity;
    try (apply NoDup_map_filter; exact W); intros k _ [].
Qed.

Lemma getters_select_witness :
  getPatternsByCategory Scenario.builtin_catalog (Some "cloud")
  = [("access_key", Scenario.key_pattern)]
  /\ getPatternsByService Scenario.builtin_catalog (Some "nothing") = [].
Proof.
  destruct (getters_select Scenario.builtin_catalog (Some "cloud")) as [C _].
  { unfold Dict.wf. cbn. repeat constructor; cbn; intuition discriminate. }
  destruct (getters_select Scenario.builtin_catalog (Some "nothing")) as [_ S].
  { unfold Dict.wf. cbn. repeat constructor; cbn; intuition discriminate. }
  rewrite C, S. split; reflexivity.
Defined.

End ContextProps.
